(** * cfm_helpers: the storage-transparent resource layer, embedded in Rocq

    A shallow embedding of [cfm_helpers.py]: the line-oriented
    configuration parser, the credential resolution of [S3Initializer],
    the writers [S3Writer] and [CsvWriter], the header-aware [CsvReader]
    and the catalog count of [FileManager].

    Conventions of the embedding.
    - A Python [str] is a [string]; its characters are read as code points
      below 256.
    - A call either returns, terminates the process ([exit]) or raises; the
      three are the constructors of [outcome].  Text printed on standard
      output is not part of the model.
    - A Python [float] is a binary64 number, with the primitive addition
      and multiplication; the conversion [float(s)] of a string is a
      parameter of the functions that use it.
    - The local file system is a finite map from a path to the text of the
      regular file stored there (the text [read] would return, newlines
      already translated to LF).  Directories are not part of the model. *)

From Stdlib Require Import ZArith Ascii String List Bool Lia.
From Stdlib Require Import Floats.PrimFloat.
From Stdlib Require Import DecimalString.
From stdpp Require Import base option list gmap strings fin_maps.

Local Open Scope string_scope.
Local Open Scope Z_scope.

(** ** Python strings *)

Module PyStr.

Definition LF : ascii := ascii_of_nat 10.

(** [str.isspace] on a single code point below 256: TAB, LF, VT, FF, CR,
    FS, GS, RS, US, SPACE, NEL and NBSP. *)
Definition is_space (c : ascii) : bool :=
  let n := N_of_ascii c in
  ((9 <=? n) && (n <=? 13) || (28 <=? n) && (n <=? 32)
   || (n =? 133) || (n =? 160))%N.

(** [c in s] for a one-character [c]. *)
Fixpoint contains (c : ascii) (s : string) : bool :=
  match s with
  | EmptyString => false
  | String d s' => if Ascii.eqb d c then true else contains c s'
  end.

(** [s.startswith(p)] *)
Definition startswith (p s : string) : bool := String.prefix p s.

(** [s.lstrip()] *)
Fixpoint lstrip (s : string) : string :=
  match s with
  | EmptyString => EmptyString
  | String c s' => if is_space c then lstrip s' else s
  end.

(** [s.rstrip()] *)
Fixpoint rstrip (s : string) : string :=
  match s with
  | EmptyString => EmptyString
  | String c s' =>
      match rstrip s' with
      | EmptyString => if is_space c then EmptyString else String c EmptyString
      | r => String c r
      end
  end.

(** [s.strip()] *)
Definition strip (s : string) : string := lstrip (rstrip s).

(** [s.split(sep)] for a one-character separator: never empty. *)
Fixpoint split (sep : ascii) (s : string) : list string :=
  match s with
  | EmptyString => [EmptyString]
  | String c s' =>
      if Ascii.eqb c sep then EmptyString :: split sep s'
      else match split sep s' with
           | [] => [String c EmptyString]
           | w :: ws => String c w :: ws
           end
  end.

(** [s.split(sep, 1)]: at most one cut, at the first separator. *)
Fixpoint split1 (sep : ascii) (s : string) : list string :=
  match s with
  | EmptyString => [EmptyString]
  | String c s' =>
      if Ascii.eqb c sep then [EmptyString; s']
      else match split1 sep s' with
           | w :: ws => String c w :: ws
           | [] => [String c EmptyString]
           end
  end.

(** [file.readlines()] over the text of a file: every line keeps its
    terminating LF; a last line without LF is kept as it is. *)
Fixpoint readlines (text : string) : list string :=
  match text with
  | EmptyString => []
  | String c rest =>
      if Ascii.eqb c LF then String c EmptyString :: readlines rest
      else match readlines rest with
           | [] => [String c EmptyString]
           | l :: ls => String c l :: ls
           end
  end.

(** [sep.join(parts)] *)
Fixpoint join (sep : string) (parts : list string) : string :=
  match parts with
  | [] => EmptyString
  | [p] => p
  | p :: ps => p +:+ sep +:+ join sep ps
  end.

End PyStr.

Import PyStr.

(** ** Outcomes of a call *)

Inductive exn :=
| AttributeError | KeyError | IndexError | ValueError | TypeError
| UnboundLocalError | FileNotFoundError | ClientError.

Inductive outcome (A : Type) :=
| Return (a : A)
| Exit (status : Z)
| Raise (e : exn).
Arguments Return {A} a.
Arguments Exit {A} status.
Arguments Raise {A} e.

#[global] Instance outcome_ret : MRet outcome := λ A, Return.
#[global] Instance outcome_bind : MBind outcome := λ A B f m,
  match m with
  | Return a => f a
  | Exit n => Exit n
  | Raise e => Raise e
  end.

(** The builtin [exit(code)]: it raises [SystemExit(code)], and the
    interpreter ends the process with status [code], or with status 0 when
    no code is given. *)
Definition exit_status (code : option Z) : Z := default 0 code.
Definition py_exit {A} (code : option Z) : outcome A := Exit (exit_status code).

(** ** Python values

    The values that the configuration holds and that the objects of the
    module keep in their attributes.  A file opened for writing is known by
    its path; a file opened for reading by the lines not read yet. *)

Inductive value :=
| VStr (s : string)
| VList (l : list string)
| VInt (n : Z)
| VBool (b : bool)
| VNone
| VDict (d : gmap string nat)
| VWriter (path : string)
| VReader (pending : list string).

#[global] Instance value_eq_dec : EqDecision value.
Proof. solve_decision. Defined.

(** Truth value of an object in a condition. *)
Definition truthy (v : value) : bool :=
  match v with
  | VStr s => negb (String.eqb s "")
  | VList l => match l with [] => false | _ => true end
  | VInt n => negb (n =? 0)
  | VBool b => b
  | VNone => false
  | VDict d => negb (bool_decide (d = ∅))
  | VWriter _ | VReader _ => true
  end.

(** [len(v)] *)
Definition py_len (v : value) : outcome nat :=
  match v with
  | VStr s => Return (String.length s)
  | VList l => Return (List.length l)
  | _ => Raise TypeError
  end.

(** [l[i]] on a list, negative indices counting from the end. *)
Definition py_index {A} (l : list A) (i : Z) : outcome A :=
  let n := Z.of_nat (List.length l) in
  let j := if i <? 0 then i + n else i in
  if (0 <=? j) && (j <? n)
  then match l !! Z.to_nat j with
       | Some x => Return x
       | None => Raise IndexError
       end
  else Raise IndexError.

(** ** The configuration parser *)

Abbreviation files := (gmap string string).

(** [get_useful_lines(filename)].  The generator is consumed to its end by
    its only caller, so it is embedded as the list of what it yields. *)
Definition get_useful_lines (fs : files) (filename : string)
  : outcome (list string) :=
  match fs !! filename with
  | None => py_exit (Some 1)
  | Some text =>
      Return (rstrip <$>
                List.filter
                  (λ line, negb (startswith "#" line)
                           && (0 <? String.length line)%nat)
                  (readlines text))
  end.

(** The local variables of [get_config_value] that live across the loop. *)
Record cfg_state := CfgState {
  result : value;
  key : option string;
  results : gmap string value
}.

Definition cfg_init : cfg_state :=
  {| result := VStr ""; key := None; results := ∅ |}.

(** [if len(result) > 0: results[key] = result; result = ""] *)
Definition cfg_flush (st : cfg_state) : outcome cfg_state :=
  n ← py_len (result st);
  if (0 <? n)%nat then
    match key st with
    | Some k =>
        Return {| result := VStr ""; key := key st;
                  results := <[k := result st]> (results st) |}
    | None => Raise UnboundLocalError
    end
  else Return st.

(** The body of the loop over the useful lines. *)
Definition cfg_line (st : cfg_state) (line : string) : outcome cfg_state :=
  if contains ":" line && negb (startswith " " line) then
    st ← cfg_flush st;
    match split1 ":" (strip line) with
    | [k; v] =>
        let v := strip v in
        if (0 <? String.length v)%nat
        then Return {| result := VStr v; key := Some k; results := results st |}
        else Return {| result := VList []; key := Some k; results := results st |}
    | _ => Raise ValueError
    end
  else
    match result st with
    | VList l =>
        Return {| result := VList (l ++ [strip line]); key := key st;
                  results := results st |}
    | _ => Raise AttributeError
    end.

Fixpoint cfg_loop (st : cfg_state) (lines : list string) : outcome cfg_state :=
  match lines with
  | [] => Return st
  | line :: rest => st ← cfg_line st line; cfg_loop st rest
  end.

(** The dictionary [results] as it stands after the loop and the final
    flush. *)
Definition cfg_results (fs : files) (filename : string)
  : outcome (gmap string value) :=
  lines ← get_useful_lines fs filename;
  st ← cfg_loop cfg_init lines;
  st ← cfg_flush st;
  Return (results st).

(** [get_config_value(config_key, filename=None, suppress_key_not_found=False)] *)
Definition get_config_value (fs : files) (config_key : string)
    (filename : option string) (suppress_key_not_found : bool)
  : outcome value :=
  let filename := default "PlatformChargeback.cfg" filename in
  results ← cfg_results fs filename;
  match results !! config_key with
  | Some v => Return v
  | None =>
      if suppress_key_not_found then Return (VInt 0)
      else py_exit None
  end.

(** ** Objects, environment and remote store *)

(** An object is its attribute dictionary. *)
Abbreviation attrs := (gmap string value).

Definition hasattr (self : attrs) (name : string) : bool :=
  bool_decide (is_Some (self !! name)).

Definition getattr (self : attrs) (name : string) : outcome value :=
  match self !! name with
  | Some v => Return v
  | None => Raise AttributeError
  end.

Definition as_str (v : value) : outcome string :=
  match v with VStr s => Return s | _ => Raise TypeError end.

Definition as_list (v : value) : outcome (list string) :=
  match v with VList l => Return l | _ => Raise TypeError end.

Definition as_dict (v : value) : outcome (gmap string nat) :=
  match v with VDict d => Return d | _ => Raise TypeError end.

(** One binding of a service in [VCAP_SERVICES]; only its [credentials]
    object is ever read. *)
Record binding := Binding { credentials : gmap string string }.

(** [json.loads(os.environ['VCAP_SERVICES'])]: service name to bindings. *)
Abbreviation vcap_services := (gmap string (list binding)).

(** [boto3.client('s3', aws_access_key_id=..., aws_secret_access_key=...)] *)
Record s3_client := S3Client {
  aws_access_key_id : value;
  aws_secret_access_key : value
}.

Abbreviation extra_args := (gmap string string).

(** The calls made to the S3 client.  What the remote store answers is not
    decided by this module, so the store is a type [R] with the three
    operations; an answer is an [outcome], a failure of the service being
    [Raise ClientError].  [s3_upload_file] receives the text of the local
    file; [s3_list_objects_v2] answers the keys under ['Contents'], or
    [None] when the response has no such entry. *)
Class S3Api (R : Type) := {
  s3_download_file :
    s3_client → value → string → R → outcome string;
  s3_upload_file :
    s3_client → string → value → string → option extra_args → R → outcome R;
  s3_list_objects_v2 :
    s3_client → value → option value → R → outcome (option (list string))
}.

(** What the module does to the local files and asks of the remote store,
    in the order it does it. *)
Inductive event :=
| EvCopy2 (src dst : string)
| EvOpenW (path : string)
| EvWrite (path text : string)
| EvDownload (bucket : value) (key filename text : string)
| EvUpload (filename : string) (bucket : value) (key : string)
           (ExtraArgs : option extra_args).

Definition apply_event (ev : event) (fs : files) : files :=
  match ev with
  | EvCopy2 src dst =>
      match fs !! src with
      | Some text => <[dst := text]> fs
      | None => fs
      end
  | EvOpenW path => <[path := ""]> fs
  | EvWrite path text => alter (λ old, old +:+ text) path fs
  | EvDownload _ _ filename text => <[filename := text]> fs
  | EvUpload _ _ _ _ => fs
  end.

Record world (R : Type) := World {
  w_fs : files;
  w_env : option vcap_services;
  w_s3 : R;
  w_log : list event
}.
Arguments World {R}.
Arguments w_fs {R}.
Arguments w_env {R}.
Arguments w_s3 {R}.
Arguments w_log {R}.

(** A computation on the world.  The world is kept when the computation
    exits or raises: what was done before stays done. *)
Definition M (R A : Type) : Type := world R → outcome A * world R.

#[global] Instance M_ret {R} : MRet (M R) := λ A a w, (Return a, w).
#[global] Instance M_bind {R} : MBind (M R) := λ A B f m w,
  match m w with
  | (Return a, w') => f a w'
  | (Exit n, w') => (Exit n, w')
  | (Raise e, w') => (Raise e, w')
  end.

Definition lift {R A} (o : outcome A) : M R A := λ w, (o, w).

(** [try: body finally: cleanup] *)
Definition finally {R A} (body : M R A) (cleanup : M R unit) : M R A := λ w,
  let '(o, w') := body w in
  match cleanup w' with
  | (Return _, w'') => (o, w'')
  | (Exit n, w'') => (Exit n, w'')
  | (Raise e, w'') => (Raise e, w'')
  end.

Definition emit {R} (ev : event) : M R unit := λ w,
  (Return tt,
   {| w_fs := apply_event ev (w_fs w); w_env := w_env w; w_s3 := w_s3 w;
      w_log := w_log w ++ [ev] |}).

(** [os.path.exists(path)]; it is [os.path.isfile(path)] as well, the model
    holding regular files only. *)
Definition os_path_exists {R} (path : string) : M R bool := λ w,
  (Return (bool_decide (is_Some (w_fs w !! path))), w).

(** [shutil.copy2(src, dst)] *)
Definition shutil_copy2 {R} (src dst : string) : M R unit := λ w,
  match w_fs w !! src with
  | Some _ => emit (EvCopy2 src dst) w
  | None => (Raise FileNotFoundError, w)
  end.

(** [open(path, 'w')]: the file is created or truncated at once. *)
Definition open_w {R} (path : string) : M R value :=
  _ ← emit (EvOpenW path); mret (VWriter path).

(** [open(path, 'r')] *)
Definition open_r {R} (path : string) : M R value := λ w,
  match w_fs w !! path with
  | Some text => (Return (VReader (readlines text)), w)
  | None => (Raise FileNotFoundError, w)
  end.

(** [print(text, file=f)] *)
Definition print_to {R} (f : value) (text : string) : M R unit :=
  match f with
  | VWriter path => emit (EvWrite path (text +:+ String LF ""))
  | _ => lift (Raise AttributeError)
  end.

(** ** Credential resolution: [S3Initializer] *)

Section Resources.
Context {R : Type} `{!S3Api R}.

(** [get_service_from_vcap_services(service_name)] *)
Definition get_service_from_vcap_services (service_name : string)
  : M R binding := λ w,
  match w_env w with
  | None => (Raise KeyError, w)
  | Some env_vars_json =>
      match env_vars_json !! service_name with
      | None => (py_exit None, w)
      | Some bindings => (py_index bindings 0, w)
      end
  end.

(** [d[k]] on a dictionary of strings. *)
Definition dict_get (d : gmap string string) (k : string) : outcome string :=
  match d !! k with
  | Some v => Return v
  | None => Raise KeyError
  end.

(** [get_config_value] reading the local files of the world. *)
Definition config_value (config_key filename : string)
    (suppress_key_not_found : bool) : M R value := λ w,
  (get_config_value (w_fs w) config_key (Some filename) suppress_key_not_found,
   w).

(** [S3Initializer.__init__(self, s3_only)] *)
Definition S3Initializer___init__ (self : attrs) (s3_only : value)
  : M R attrs :=
  let self := <["s3_only" := s3_only]> self in
  λ w,
  match w_env w with
  | Some _ =>
      (s3_service ← get_service_from_vcap_services "aws-s3";
       let credentials := credentials s3_service in
       access_key_id ← lift (dict_get credentials "access_key_id");
       let self := <["access_key_id" := VStr access_key_id]> self in
       bucket ← lift (dict_get credentials "bucket");
       let self := <["bucket" := VStr bucket]> self in
       secret_access_key ← lift (dict_get credentials "secret_access_key");
       let self := <["secret_access_key" := VStr secret_access_key]> self in
       match credentials !! "kms_key_arn" with
       | Some kms_key_arn =>
           let words := split "/" kms_key_arn in
           kms_key_id ← lift (py_index words 1);
           mret (<["kms_key_id" := VStr kms_key_id]> self)
       | None => mret (<["kms_key_id" := VStr ""]> self)
       end) w
  | None =>
      (isfile ← os_path_exists "aws.cfg";
       if isfile : bool then
         access_key_id ← config_value "access_key_id" "aws.cfg" false;
         let self := <["access_key_id" := access_key_id]> self in
         secret_access_key ← config_value "secret_access_key" "aws.cfg" false;
         let self := <["secret_access_key" := secret_access_key]> self in
         bucket ← config_value "bucket" "aws.cfg" false;
         let self := <["bucket" := bucket]> self in
         kms_key_id ← config_value "bucket" "aws.cfg" true;
         mret (<["kms_key_id" := kms_key_id]> self)
       else if truthy s3_only then lift (py_exit (Some 1))
       else mret self) w
  end.

(** [S3Initializer.get_s3_client(self)] *)
Definition get_s3_client (self : attrs) : outcome s3_client :=
  access_key_id ← getattr self "access_key_id";
  secret_access_key ← getattr self "secret_access_key";
  Return {| aws_access_key_id := access_key_id;
            aws_secret_access_key := secret_access_key |}.

(** [s3_client.upload_file(Filename, Bucket, Key, ExtraArgs=ExtraArgs)] *)
Definition upload_file (client : s3_client) (Filename : string)
    (Bucket : value) (Key : string) (ExtraArgs : option extra_args)
  : M R unit := λ w,
  match w_fs w !! Filename with
  | None => (Raise FileNotFoundError, w)
  | Some text =>
      let w' := {| w_fs := w_fs w; w_env := w_env w; w_s3 := w_s3 w;
                   w_log := w_log w ++ [EvUpload Filename Bucket Key ExtraArgs] |} in
      match s3_upload_file client text Bucket Key ExtraArgs (w_s3 w) with
      | Return r =>
          (Return tt,
           {| w_fs := w_fs w'; w_env := w_env w'; w_s3 := r;
              w_log := w_log w' |})
      | Exit n => (Exit n, w')
      | Raise e => (Raise e, w')
      end
  end.

(** [s3_client.download_file(Bucket, Key, Filename)] *)
Definition download_file (client : s3_client) (Bucket : value)
    (Key Filename : string) : M R unit := λ w,
  match s3_download_file client Bucket Key (w_s3 w) with
  | Return text => emit (EvDownload Bucket Key Filename text) w
  | Exit n => (Exit n, w)
  | Raise e => (Raise e, w)
  end.

(** ** [FileManager] *)

(** [FileManager.__init__(self, s3_only=None)] *)
Definition FileManager___init__ (s3_only : value) : M R attrs :=
  S3Initializer___init__ ∅ s3_only.

(** [s3_client.list_objects_v2(Bucket=..., Prefix=...)] *)
Definition list_objects_v2 (client : s3_client) (Bucket : value)
    (Prefix : option value) : M R (option (list string)) := λ w,
  (s3_list_objects_v2 client Bucket Prefix (w_s3 w), w).

(** [try: body except ClientError: handler] *)
Definition except_ClientError {A} (body handler : M R A) : M R A := λ w,
  match body w with
  | (Raise ClientError, w') => handler w'
  | r => r
  end.

(** [FileManager.files_present(self, prefix=None)] *)
Definition files_present (self : attrs) (prefix : value) : M R value :=
  if hasattr self "bucket" then
    s3_client ← lift (get_s3_client self);
    response ←
      except_ClientError
        (bucket ← lift (getattr self "bucket");
         if truthy prefix
         then list_objects_v2 s3_client bucket (Some prefix)
         else list_objects_v2 s3_client bucket None)
        (lift (py_exit None));
    match response with
    | Some contents => mret (VInt (Z.of_nat (List.length contents)))
    | None => mret (VInt 0)
    end
  else mret VNone.

(** ** [S3Writer] *)

(** [S3Writer.__init__(self, filename, s3_only=None)] *)
Definition S3Writer___init__ (filename : string) (s3_only : value)
  : M R attrs :=
  let self := <["filename" := VStr filename]> (∅ : attrs) in
  S3Initializer___init__ self s3_only.

(** [S3Writer.__enter__(self)]: the object with its new attribute, and the
    file handed to the body of the [with]. *)
Definition S3Writer___enter__ (self : attrs) : M R (attrs * value) :=
  filename ← lift (getattr self "filename" ≫= as_str);
  present ← os_path_exists filename;
  _ ← (if present : bool
       then shutil_copy2 filename (filename +:+ ".sav")
       else mret tt);
  file ← open_w filename;
  mret (<["file" := file]> self, file).

(** [S3Writer.__exit__(self, exc_type, exc_val, exc_tb)] *)
Definition S3Writer___exit__ (self : attrs) : M R unit :=
  file ← lift (getattr self "file");
  if truthy file then
    if hasattr self "bucket" then
      let extraArgs : option extra_args :=
        if hasattr self "kms_key_arn"
        then Some (<["ServerSideEncryption" := "aws:kms"]>
                     (<["SSEKMSKeyID" := "self.kms_key_arn"]> ∅))
        else None in
      s3_client ← lift (get_s3_client self);
      filename ← lift (getattr self "filename" ≫= as_str);
      bucket ← lift (getattr self "bucket");
      upload_file s3_client filename bucket filename extraArgs
    else mret tt
  else mret tt.

(** [with S3Writer(filename, s3_only) as file: body(file)] *)
Definition with_S3Writer {A} (filename : string) (s3_only : value)
    (body : value → M R A) : M R A :=
  self ← S3Writer___init__ filename s3_only;
  '(self, file) ← S3Writer___enter__ self;
  finally (body file) (S3Writer___exit__ self).

(** ** [CsvWriter] *)

(** [CsvWriter.__init__(self, filename, header=None)], the header being a
    string when one is given. *)
Definition CsvWriter___init__ (filename : string) (header : option string)
  : M R attrs :=
  let self := <["filename" := VStr filename]> (∅ : attrs) in
  let self := <["current_line" := VStr ""]> self in
  let self := <["lines" := VList []]> self in
  let self := <["header" := from_option VStr VNone header]> self in
  S3Initializer___init__ self VNone.

(** [CsvWriter.__enter__(self)] *)
Definition CsvWriter___enter__ (self : attrs) : M R attrs :=
  filename ← lift (getattr self "filename" ≫= as_str);
  file ← open_w filename;
  mret (<["file" := file]> self).

(** [for line in lines: print(line, file=file)] *)
Fixpoint print_lines (file : value) (lines : list string) : M R unit :=
  match lines with
  | [] => mret tt
  | line :: rest => _ ← print_to file line; print_lines file rest
  end.

(** [CsvWriter.__exit__(self, exc_type, exc_val, exc_tb)] *)
Definition CsvWriter___exit__ (self : attrs) : M R unit :=
  file ← lift (getattr self "file");
  if truthy file then
    header ← lift (getattr self "header");
    _ ← (if truthy header
         then text ← lift (as_str header); print_to file text
         else mret tt);
    lines ← lift (getattr self "lines" ≫= as_list);
    _ ← print_lines file lines;
    if hasattr self "bucket" then
      s3_client ← lift (get_s3_client self);
      filename ← lift (getattr self "filename" ≫= as_str);
      bucket ← lift (getattr self "bucket");
      upload_file s3_client filename bucket filename None
    else mret tt
  else mret tt.

(** [CsvWriter.add_value(self, value)] *)
Definition add_value (self : attrs) (value : string) : outcome attrs :=
  current_line ← getattr self "current_line" ≫= as_str;
  if String.eqb current_line ""
  then Return (<["current_line" := VStr value]> self)
  else Return (<["current_line" := VStr (current_line +:+ "," +:+ value)]> self).

(** [CsvWriter.new_line(self)] *)
Definition new_line (self : attrs) : outcome attrs :=
  lines ← getattr self "lines" ≫= as_list;
  current_line ← getattr self "current_line" ≫= as_str;
  Return (<["current_line" := VStr ""]>
            (<["lines" := VList (lines ++ [current_line])]> self)).

(** ** [CsvReader] *)

(** [CsvReader.__init__(self, csv_filename)] *)
Definition CsvReader___init__ (csv_filename : string) : M R attrs :=
  self ← S3Initializer___init__ ∅ VNone;
  let self := <["filename" := VStr csv_filename]> self in
  if hasattr self "bucket" then
    present ← os_path_exists csv_filename;
    if present : bool then mret self
    else
      s3_client ← lift (get_s3_client self);
      bucket ← lift (getattr self "bucket");
      _ ← download_file s3_client bucket csv_filename csv_filename;
      mret self
  else mret self.

(** [file.readline()]: the line read and the file after it. *)
Definition readline (file : value) : outcome (string * value) :=
  match file with
  | VReader [] => Return ("", VReader [])
  | VReader (line :: pending) => Return (line, VReader pending)
  | _ => Raise AttributeError
  end.

(** [for num, column_name in enumerate(names): column_index[column_name] = num] *)
Fixpoint enumerate_into (num : nat) (names : list string)
    (column_index : gmap string nat) : gmap string nat :=
  match names with
  | [] => column_index
  | column_name :: rest =>
      enumerate_into (S num) rest (<[column_name := num]> column_index)
  end.

(** [CsvReader.__enter__(self)] *)
Definition CsvReader___enter__ (self : attrs) : M R attrs :=
  filename ← lift (getattr self "filename" ≫= as_str);
  file ← open_r filename;
  '(line, file) ← lift (readline file);
  let self := <["file" := file]> self in
  let header := strip line in
  let self := <["header" := VStr header]> self in
  let self := <["column_names" := VList (split "," header)]> self in
  let self :=
    <["column_index" := VDict (enumerate_into 0 (split "," header) ∅)]> self in
  mret self.

(** [CsvReader.__exit__(self, exc_type, exc_val, exc_tb)]: the file is
    closed, which leaves no trace in the model. *)
Definition CsvReader___exit__ (self : attrs) : M R unit :=
  _ ← lift (getattr self "file"); mret tt.

(** [self.file.readlines()], with which the generator
    [CsvReader.readlines(self)] starts: the lines not read yet, and the
    object with its file read to the end. *)
Definition file_readlines (self : attrs) : outcome (list string * attrs) :=
  file ← getattr self "file";
  match file with
  | VReader pending => Return (pending, <["file" := VReader []]> self)
  | _ => Raise AttributeError
  end.

(** One turn of the generator [CsvReader.readlines(self)]: the attributes
    set before the line is yielded. *)
Definition next_record (self : attrs) (line : string) : attrs :=
  let current_line := strip line in
  <["words" := VList (split "," current_line)]>
    (<["current_line" := VStr current_line]> self).

(** [CsvReader.column(self, column_name)] *)
Definition column (self : attrs) (column_name : string) : outcome string :=
  words ← getattr self "words" ≫= as_list;
  column_index ← getattr self "column_index" ≫= as_dict;
  match column_index !! column_name with
  | Some num => py_index words (Z.of_nat num)
  | None => Raise KeyError
  end.

(** [CsvReader.column_by_number(self, column_number)] *)
Definition column_by_number (self : attrs) (column_number : Z)
  : outcome string :=
  words ← getattr self "words" ≫= as_list;
  if column_number >? Z.of_nat (List.length words) then py_exit None
  else py_index words (column_number - 1).

(** [CsvReader.column_present(self, column_name)] *)
Definition column_present (self : attrs) (column_name : string)
  : outcome bool :=
  column_index ← getattr self "column_index" ≫= as_dict;
  Return (bool_decide (is_Some (column_index !! column_name))).

(** ** [get_total_from_csv] *)

Section Totals.
(** [float(s)]; [None] when the string is not a number. *)
Variable float_of_str : string → option float.

Definition py_float (s : string) : outcome float :=
  match float_of_str s with
  | Some x => Return x
  | None => Raise ValueError
  end.

(** The loop of [get_total_from_csv] over the lines [readlines] yields. *)
Fixpoint total_loop (key_column : string) (csv_reader : attrs)
    (total : float) (lines : list string) : outcome float :=
  match lines with
  | [] => Return total
  | line :: rest =>
      let csv_reader := next_record csv_reader line in
      total ←
        (if contains "*" key_column then
           let words := split "*" key_column in
           name ← py_index words 0;
           x ← column csv_reader name ≫= py_float;
           name ← py_index words 1;
           y ← column csv_reader name ≫= py_float;
           Return (total + x * y)%float
         else
           x ← column csv_reader key_column ≫= py_float;
           Return (total + x)%float);
      total_loop key_column csv_reader total rest
  end.

(** [get_total_from_csv(csv_filename, key_column)].  Leaving the [with]
    closes the file, whatever was read from it. *)
Definition get_total_from_csv (csv_filename key_column : string)
  : M R float :=
  let total := 0%float in
  csv_reader ← CsvReader___init__ csv_filename;
  csv_reader ← CsvReader___enter__ csv_reader;
  finally
    (present ← lift (column_present csv_reader key_column);
     if negb present then lift (py_exit None)
     else
       '(lines, csv_reader) ← lift (file_readlines csv_reader);
       lift (total_loop key_column csv_reader total lines))
    (CsvReader___exit__ csv_reader).

End Totals.

End Resources.

(** ** A remote store kept in memory

    Used to run the functions above on concrete worlds: a bucket and a key
    lead to the text stored there. *)

Abbreviation mem_store := (gmap (string * string) string).

Definition mem_keys (b : string) (Prefix : option value) (r : mem_store)
  : list string :=
  let wanted (k : string) : bool :=
    match Prefix with
    | Some (VStr p) => startswith p k
    | _ => true
    end in
  omap (λ '((b', k), _), if String.eqb b b' && wanted k then Some k else None)
       (map_to_list r).

#[global] Instance mem_s3 : S3Api mem_store := {|
  s3_download_file _ Bucket Key r :=
    match Bucket with
    | VStr b => match r !! (b, Key) with
                | Some text => Return text
                | None => Raise ClientError
                end
    | _ => Raise TypeError
    end;
  s3_upload_file _ text Bucket Key _ r :=
    match Bucket with
    | VStr b => Return (<[(b, Key) := text]> r)
    | _ => Raise TypeError
    end;
  s3_list_objects_v2 _ Bucket Prefix r :=
    match Bucket with
    | VStr b => match mem_keys b Prefix r with
                | [] => Return None
                | keys => Return (Some keys)
                end
    | _ => Raise TypeError
    end
|}.

(** A world with the given local files and environment, an empty remote
    store and nothing done yet. *)
Definition local_world (fs : files) (env : option vcap_services)
  : world mem_store :=
  {| w_fs := fs; w_env := env; w_s3 := ∅; w_log := [] |}.

(** ** Writing a configuration file

    The text of a file given line by line, and the configuration files that
    the round trip is about: a sequence of entries, each a scalar
    [key: value] or a key followed by its continuation lines. *)

Definition unlines (ls : list string) : string :=
  fold_right (λ l acc, l +:+ String LF acc) "" ls.

Inductive entry :=
| Scalar (k v : string)
| Block (k : string) (items : list string).

Definition entry_key (e : entry) : string :=
  match e with Scalar k _ => k | Block k _ => k end.

Definition entry_lines (e : entry) : list string :=
  match e with
  | Scalar k v => [k +:+ ": " +:+ v]
  | Block k items => (k +:+ ":") :: items
  end.

Definition write_config (es : list entry) : string :=
  unlines (concat (entry_lines <$> es)).

(** The value an entry is expected to read back as. *)
Definition entry_value (e : entry) : value :=
  match e with
  | Scalar _ v => VStr (strip v)
  | Block _ items => VList (strip <$> items)
  end.

(** A key is one line without a colon that starts neither with white space
    nor as a comment. *)
Definition key_ok (k : string) : bool :=
  negb (contains LF k) && negb (contains ":" k)
  && match k with
     | EmptyString => true
     | String c _ => negb (is_space c) && negb (Ascii.eqb c "#")
     end.

(** A scalar value is one line that is not blank. *)
Definition scalar_ok (v : string) : bool :=
  negb (contains LF v) && negb (String.eqb (strip v) "").

(** A continuation line is one line that is not a comment and that the
    parser does not take for a key line: it has no colon, or it starts with
    a space. *)
Definition item_ok (c : string) : bool :=
  negb (contains LF c) && negb (startswith "#" c)
  && (negb (contains ":" c) || startswith " " c).

(** An entry with [at_least] continuation lines or more when it is a
    list. *)
Definition entry_ok (at_least : nat) (e : entry) : bool :=
  match e with
  | Scalar k v => key_ok k && scalar_ok v
  | Block k items =>
      key_ok k && (at_least <=? List.length items)%nat && forallb item_ok items
  end.

(** The dictionary a sequence of entries stands for, a later entry
    replacing an earlier one of the same key. *)
Definition config_of_entries (results : gmap string value) (es : list entry)
  : gmap string value :=
  foldl (λ results e, <[entry_key e := entry_value e]> results) results es.

(** Whether the parser stores an entry: it passes over a list without
    members. *)
Definition entry_stored (e : entry) : bool :=
  match e with
  | Scalar _ _ => true
  | Block _ items => match items with [] => false | _ => true end
  end.

(** ** Records with numeric fields

    A record holds the number [x] in the column at offset [num]: the field
    there converts to [x]. *)
Definition field_is (float_of_str : string → option float)
    (num : nat) (line : string) (x : float) : Prop :=
  ∃ field, split "," (strip line) !! num = Some field
           ∧ float_of_str field = Some x.

(** ** Concrete inputs *)

(** A local credential file that names a bucket and an encryption key. *)
Definition aws_cfg_with_kms : files :=
  {[ "aws.cfg" :=
       unlines ["access_key_id: AKIAEXAMPLE";
                "secret_access_key: s3cr3t";
                "bucket: my-bucket";
                "kms_key_arn: arn:aws:kms:us-east-1:111122223333:key/1234abcd"] ]}.

(** A service binding that names a bucket and an encryption key. *)
Definition vcap_with_kms : vcap_services :=
  {[ "aws-s3" :=
       [ {| credentials :=
              {[ "access_key_id" := "AKIAEXAMPLE";
                 "secret_access_key" := "s3cr3t";
                 "bucket" := "my-bucket";
                 "kms_key_arn" :=
                   "arn:aws:kms:us-east-1:111122223333:key/1234abcd" ]} |} ] ]}.

(** A list key with a blank line between its two members, and the same file
    without the blank line. *)
Definition cfg_with_blank : files :=
  {[ "c.cfg" := unlines ["K:"; "- foo"; ""; "- bar"] ]}.
Definition cfg_without_blank : files :=
  {[ "c.cfg" := unlines ["K:"; "- foo"; "- bar"] ]}.

(** ** Helpers without resources *)

(** [sub in s] for strings. *)
Fixpoint is_substring (sub s : string) : bool :=
  if startswith sub s then true
  else match s with
       | EmptyString => false
       | String _ s' => is_substring sub s'
       end.

(** [find_line(search_line, lines)] *)
Fixpoint find_line (search_line : string) (lines : list string) : string :=
  match lines with
  | [] => ""
  | line :: rest =>
      if is_substring search_line line then line
      else find_line search_line rest
  end.

(** The values a [for] loop draws from what [get_config_value] returned: the
    members of a list, the characters of a string; the integer 0 is not
    iterable. *)
Fixpoint characters (s : string) : list string :=
  match s with
  | EmptyString => []
  | String c s' => String c "" :: characters s'
  end.

Definition config_iter (v : value) : outcome (list string) :=
  match v with
  | VList l => Return l
  | VStr s => Return (characters s)
  | _ => Raise TypeError
  end.

(** [licensed_service(service_name)] *)
Definition licensed_service (fs : files) (service_name : string)
  : outcome bool :=
  entries ← get_config_value fs "LICENSED_SERVICES" None false ≫= config_iter;
  Return (foldl (λ (licensed : bool) licensed_service,
                   if startswith licensed_service service_name
                   then true else licensed)
                false entries).

(** [vcap_service_present(service_name)] *)
Definition vcap_service_present (env : option vcap_services)
    (service_name : string) : bool :=
  match env with
  | Some env_vars_json => bool_decide (is_Some (env_vars_json !! service_name))
  | None => false
  end.

Section Integers.
(** [int(s)]; [None] when the string is not an integer. *)
Variable int_of_str : string → option Z.

Definition py_int (s : string) : outcome Z :=
  match int_of_str s with
  | Some n => Return n
  | None => Raise ValueError
  end.

(** [days_in_month(month_string)] *)
Definition days_in_month (month_string : string) : outcome Z :=
  month ← py_int month_string;
  if (month =? 4) || (month =? 6) || (month =? 9) || (month =? 11)
  then Return 30
  else if month =? 2 then Return 28
  else if (month <? 1) || (month >? 12) then py_exit None
  else Return 31.

(** The loop of [get_data_from_file] over the instructions, [results]
    being what was collected so far. *)
Fixpoint extract_data (instructions lines results : list string)
  : outcome (list string) :=
  match instructions with
  | [] => Return results
  | instruction :: rest =>
      match split "," instruction with
      | [search_text; word] =>
          let desired_line := find_line search_text lines in
          if String.eqb desired_line "" then py_exit (Some 1)
          else
            let words := split " " desired_line in
            if String.eqb word "last" then
              last_word ← py_index words (-1);
              extract_data rest lines (results ++ [last_word])
            else
              word_number ← py_int word;
              if (word_number <? 1)
                 || (word_number >? Z.of_nat (List.length words))
              then py_exit (Some 1)
              else
                found ← py_index words (word_number - 1);
                extract_data rest lines (results ++ [found])
      | _ => Raise ValueError
      end
  end.

End Integers.

(** [%d] and [%02d] of an integer. *)
Definition format_d (n : Z) : string := NilZero.string_of_int (Z.to_int n).

Definition format_02d (n : Z) : string :=
  let s := format_d n in
  if (String.length s <? 2)%nat then "0" +:+ s else s.

(** The year and the month that [billing_datestring] prints, [today] being
    the year and the month of [datetime.date.today()]. *)
Definition billing_month (today : Z * Z) (month_offset : option Z) : Z * Z :=
  let month_offset := default 1 month_offset in
  let '(year, month) := today in
  let month := month - month_offset in
  if month <? 1 then (year - 1, month + 12) else (year, month).

(** [billing_datestring(month_offset=None)] *)
Definition billing_datestring (today : Z * Z) (month_offset : option Z)
  : string :=
  let '(year, month) := billing_month today month_offset in
  format_d year +:+ format_02d month.

(** ** [TableBuilder] *)

(** [for index, item in enumerate(column_to_add): self.data[index].append(item)],
    from [index] on.  The rows already extended stay so when a row is
    missing. *)
Fixpoint append_to_rows {A} (index : nat) (column_to_add : list A)
    (data : list (list A)) : outcome unit * list (list A) :=
  match column_to_add with
  | [] => (Return tt, data)
  | item :: rest =>
      match data !! index with
      | Some row =>
          append_to_rows (S index) rest (<[index := (row ++ [item])%list]> data)
      | None => (Raise IndexError, data)
      end
  end.

(** [TableBuilder.add(self, column, cell=None)] on the attribute [data]. *)
Definition TableBuilder_add {A} (data : list (list A)) (column : list A)
    (cell : option A) : outcome unit * list (list A) :=
  let column_to_add :=
    match cell with
    | None => column
    | Some c => c :: column
    end in
  match data with
  | [] => (Return tt, (λ item, [item]) <$> column_to_add)
  | _ => append_to_rows 0 column_to_add data
  end.

(** [add] column after column, stopping at the first failure. *)
Fixpoint TableBuilder_add_all {A} (data : list (list A))
    (columns : list (list A)) : outcome unit * list (list A) :=
  match columns with
  | [] => (Return tt, data)
  | column :: rest =>
      match TableBuilder_add data column None with
      | (Return _, data') => TableBuilder_add_all data' rest
      | failed => failed
      end
  end.

(** The table [data] holds the columns [columns]: it has [m] rows, and
    row [i] lists, column after column, the item [i] of each. *)
Definition table_of {A} (m : nat) (columns : list (list A))
    (data : list (list A)) : Prop :=
  List.length data = m
  ∧ ∀ i row, data !! i = Some row →
      Forall2 (λ column item, column !! i = Some item) columns row.

(** ** Further calls to the S3 client *)

(** What [head_object] can answer when it does not fail otherwise: the
    object is there, or a [ClientError] with the code of its response. *)
Inductive head_answer :=
| HeadFound
| HeadClientError (Code : string).

Class S3Objects (R : Type) := {
  s3_head_object : s3_client → value → string → R → outcome head_answer;
  s3_delete_object : s3_client → value → string → R → outcome R
}.

#[global] Instance mem_s3_objects : S3Objects mem_store := {|
  s3_head_object _ Bucket Key r :=
    match Bucket with
    | VStr b => match r !! (b, Key) with
                | Some _ => Return HeadFound
                | None => Return (HeadClientError "404")
                end
    | _ => Raise TypeError
    end;
  s3_delete_object _ Bucket Key r :=
    match Bucket with
    | VStr b => Return (delete (b, Key) r)
    | _ => Raise TypeError
    end
|}.

Section MoreResources.
Context {R : Type} `{!S3Api R} `{!S3Objects R}.

(** [s3_client.head_object(Bucket=..., Key=...)] *)
Definition head_object (client : s3_client) (Bucket : value) (Key : string)
  : M R head_answer := λ w,
  (s3_head_object client Bucket Key (w_s3 w), w).

(** [s3_client.delete_object(Bucket=..., Key=...)] *)
Definition delete_object (client : s3_client) (Bucket : value) (Key : string)
  : M R unit := λ w,
  match s3_delete_object client Bucket Key (w_s3 w) with
  | Return r =>
      (Return tt,
       {| w_fs := w_fs w; w_env := w_env w; w_s3 := r; w_log := w_log w |})
  | Exit n => (Exit n, w)
  | Raise e => (Raise e, w)
  end.

(** [FileManager.delete(self, filename)] *)
Definition FileManager_delete (self : attrs) (filename : string) : M R unit :=
  s3_client ← lift (get_s3_client self);
  bucket ← lift (getattr self "bucket");
  delete_object s3_client bucket filename.

(** ** [S3Reader] *)

(** [S3Reader.__init__(self, filename, s3_only=None, suppress_file_not_found=None)] *)
Definition S3Reader___init__ (filename : string)
    (s3_only suppress_file_not_found : value) : M R attrs :=
  let self := <["filename" := VStr filename]> (∅ : attrs) in
  let self := <["suppress_file_not_found" := suppress_file_not_found]> self in
  S3Initializer___init__ self s3_only.

(** The remote part of [S3Reader.__enter__]: [true] when the method goes on
    to open the local file, [false] when it returns [None]. *)
Definition S3Reader_fetch (self : attrs) (filename : string) : M R bool :=
  if hasattr self "bucket" then
    present ← os_path_exists filename;
    forced ← (if present : bool
              then s3_only ← lift (getattr self "s3_only");
                   mret (truthy s3_only)
              else mret true);
    if forced : bool then
      s3_client ← lift (get_s3_client self);
      bucket ← lift (getattr self "bucket");
      answer ← head_object s3_client bucket filename;
      match answer with
      | HeadFound =>
          _ ← download_file s3_client bucket filename filename;
          mret true
      | HeadClientError Code =>
          if String.eqb Code "404" then
            suppress ← lift (getattr self "suppress_file_not_found");
            if truthy suppress then mret false
            else lift (py_exit (Some 1))
          else lift (Raise ClientError)
      end
    else mret true
  else mret true.

(** [S3Reader.__enter__(self)]: the object, and the file or [None] handed
    to the body of the [with]. *)
Definition S3Reader___enter__ (self : attrs) : M R (attrs * value) :=
  filename ← lift (getattr self "filename" ≫= as_str);
  opened ← S3Reader_fetch self filename;
  if opened : bool then
    file ← open_r filename;
    mret (<["file" := file]> self, file)
  else mret (self, VNone).

(** [S3Reader.__exit__(self, exc_type, exc_val, exc_tb)]: the file is
    closed when there is one, which leaves no trace in the model. *)
Definition S3Reader___exit__ (self : attrs) : M R unit := mret tt.

(** [with S3Reader(filename, s3_only, suppress_file_not_found) as file: body(file)] *)
Definition with_S3Reader {A} (filename : string)
    (s3_only suppress_file_not_found : value) (body : value → M R A)
  : M R A :=
  self ← S3Reader___init__ filename s3_only suppress_file_not_found;
  '(self, file) ← S3Reader___enter__ self;
  finally (body file) (S3Reader___exit__ self).

(** [get_data_from_file(filename, config_key)]: [VNone] or the list of the
    values found. *)
Definition get_data_from_file (int_of_str : string → option Z)
    (filename config_key : string) : M R value :=
  instructions ← (λ w, (get_config_value (w_fs w) config_key None false, w));
  lines ←
    with_S3Reader filename (VBool true) (VBool true)
      (λ file,
         match file with
         | VNone => mret None
         | VReader pending => mret (Some pending)
         | _ => lift (Raise AttributeError)
         end);
  match lines with
  | None => mret VNone
  | Some lines =>
      instructions ← lift (config_iter instructions);
      results ← lift (extract_data int_of_str instructions lines []);
      mret (VList results)
  end.

(** ** [CsvReader], composite keys *)

(** [CsvReader.headers(self)] *)
Definition headers (self : attrs) : outcome (list string) :=
  getattr self "column_names" ≫= as_list.

(** [CsvReader.columns(self)] *)
Definition columns (self : attrs) : outcome (list string) :=
  getattr self "words" ≫= as_list.

(** The loop of [build_key] over a list of column names. *)
Fixpoint build_key_loop (self : attrs) (separator key : string)
    (names : list string) : outcome string :=
  match names with
  | [] => Return key
  | name :: rest =>
      field ← column self name;
      build_key_loop self separator
        (if String.eqb key "" then field else key +:+ separator +:+ field)
        rest
  end.

(** [CsvReader.build_key(self, columns, separator=None)], [columns] being a
    list of names or one name. *)
Definition build_key (self : attrs) (columns : list string + string)
    (separator : option string) : outcome string :=
  let separator :=
    match separator with
    | Some s => if String.eqb s "" then "," else s
    | None => ","
    end in
  match columns with
  | inl names => build_key_loop self separator "" names
  | inr name => column self name
  end.

(** The loop of [build_dict_from_csv] over the lines [readlines] yields. *)
Fixpoint dict_loop (key_columns value_columns : list string + string)
    (csv_reader : attrs) (result : gmap string string) (lines : list string)
  : outcome (gmap string string) :=
  match lines with
  | [] => Return result
  | line :: rest =>
      let csv_reader := next_record csv_reader line in
      key ← build_key csv_reader key_columns None;
      value ← build_key csv_reader value_columns None;
      dict_loop key_columns value_columns csv_reader
                (<[key := value]> result) rest
  end.

(** [build_dict_from_csv(csv_filename, key_columns, value_columns)] *)
Definition build_dict_from_csv (csv_filename : string)
    (key_columns value_columns : list string + string)
  : M R (gmap string string) :=
  csv_reader ← CsvReader___init__ csv_filename;
  csv_reader ← CsvReader___enter__ csv_reader;
  finally
    ('(lines, csv_reader) ← lift (file_readlines csv_reader);
     lift (dict_loop key_columns value_columns csv_reader ∅ lines))
    (CsvReader___exit__ csv_reader).

(** [CsvWriter.add_values(self, value_list)], the values being strings. *)
Fixpoint add_values (self : attrs) (value_list : list string)
  : outcome attrs :=
  match value_list with
  | [] => Return self
  | value :: rest => self ← add_value self value; add_values self rest
  end.

End MoreResources.

(** ** Joined fields

    The fields that a key or a line is made of once the loops of
    [build_key] and [add_value] have run: both start a new text while the
    text so far is empty, so that empty fields at the front leave no
    trace. *)
Fixpoint drop_leading_empty (fields : list string) : list string :=
  match fields with
  | EmptyString :: rest => drop_leading_empty rest
  | _ => fields
  end.

(** A field that a CSV line carries unchanged: not empty, and free of
    commas and of white space. *)
Definition plain_field (s : string) : bool :=
  negb (String.eqb s "") && negb (contains "," s)
  && forallb (λ c, negb (is_space c)) (list_ascii_of_string s).

(** [for row in rows: writer.add_values(row); writer.new_line()] *)
Fixpoint add_rows (self : attrs) (rows : list (list string)) : outcome attrs :=
  match rows with
  | [] => Return self
  | row :: rest =>
      self ← add_values self row;
      self ← new_line self;
      add_rows self rest
  end.

(** ** Concrete inputs for the read protocol *)

(** An [S3Reader] on [r.txt] with credentials, remote access forced and
    the missing-file error suppressed. *)
Definition forced_reader : attrs :=
  <["filename" := VStr "r.txt"]>
    (<["suppress_file_not_found" := VBool true]>
       (<["s3_only" := VBool true]>
          (<["access_key_id" := VStr "AKIAEXAMPLE"]>
             (<["bucket" := VStr "my-bucket"]>
                (<["secret_access_key" := VStr "s3cr3t"]>
                   (<["kms_key_id" := VStr ""]> ∅)))))).

(** A world whose remote store holds [r.txt] in [my-bucket] and whose local
    copy of [r.txt] is older. *)
Definition world_with_object : world mem_store :=
  {| w_fs := {[ "r.txt" := "old" ]}; w_env := None;
     w_s3 := {[ ("my-bucket", "r.txt") := "new" ]}; w_log := [] |}.

(** * Properties *)

(** ** Missing keys *)

Lemma get_config_value_found fs config_key filename results v suppress :
  cfg_results fs (default "PlatformChargeback.cfg" filename) = Return results →
  results !! config_key = Some v →
  get_config_value fs config_key filename suppress = Return v.
Proof.
  intros Hparse Hfound. unfold get_config_value.
  rewrite Hparse. simpl. now rewrite Hfound.
Qed.

(** C8: over a configuration file that parses, an absent key ends the
    process when suppression is off and gives the integer 0 when it is on;
    a present key gives its value whatever the flag. *)
Theorem get_config_value_key_not_found fs config_key filename results :
  cfg_results fs (default "PlatformChargeback.cfg" filename) = Return results →
  (results !! config_key = None →
   get_config_value fs config_key filename false = py_exit None
   ∧ get_config_value fs config_key filename true = Return (VInt 0))
  ∧ (∀ v, results !! config_key = Some v →
     ∀ suppress,
       get_config_value fs config_key filename suppress = Return v).
Proof.
  intros Hparse. split.
  - intros Habsent. unfold get_config_value.
    rewrite Hparse. simpl. rewrite Habsent. split; reflexivity.
  - intros v Hfound suppress.
    now apply get_config_value_found with (results := results).
Qed.

Lemma get_config_value_key_not_found_witness :
  cfg_results cfg_without_blank "c.cfg"
    = Return {[ "K" := VList ["- foo"; "- bar"] ]}
  ∧ get_config_value cfg_without_blank "J" (Some "c.cfg") false = py_exit None
  ∧ get_config_value cfg_without_blank "J" (Some "c.cfg") true = Return (VInt 0)
  ∧ ∀ suppress,
      get_config_value cfg_without_blank "K" (Some "c.cfg") suppress
      = Return (VList ["- foo"; "- bar"]).
Proof.
  assert (Hparse : cfg_results cfg_without_blank
                     (default "PlatformChargeback.cfg" (Some "c.cfg"))
                   = Return {[ "K" := VList ["- foo"; "- bar"] ]})
    by (vm_compute; reflexivity).
  destruct (get_config_value_key_not_found
              cfg_without_blank "J" (Some "c.cfg") _ Hparse)
    as [Habsent _].
  destruct (get_config_value_key_not_found
              cfg_without_blank "K" (Some "c.cfg") _ Hparse)
    as [_ Hpresent].
  split; [exact Hparse|].
  destruct (Habsent ltac:(vm_compute; reflexivity)) as [Hexit Hzero].
  split; [exact Hexit|]. split; [exact Hzero|].
  exact (Hpresent _ ltac:(vm_compute; reflexivity)).
Defined.

(** C9: over a configuration file that parses, an absent key with
    suppression off ends the process with status 0. *)
Theorem missing_key_exit_status_is_zero fs config_key filename results :
  cfg_results fs (default "PlatformChargeback.cfg" filename) = Return results →
  results !! config_key = None →
  get_config_value fs config_key filename false = Exit 0.
Proof.
  intros Hparse Habsent. unfold get_config_value.
  rewrite Hparse. simpl. rewrite Habsent. reflexivity.
Qed.

Lemma missing_key_exit_status_is_zero_witness :
  cfg_results cfg_without_blank "c.cfg"
    = Return {[ "K" := VList ["- foo"; "- bar"] ]}
  ∧ get_config_value cfg_without_blank "J" (Some "c.cfg") false = Exit 0.
Proof.
  assert (Hparse : cfg_results cfg_without_blank
                     (default "PlatformChargeback.cfg" (Some "c.cfg"))
                   = Return {[ "K" := VList ["- foo"; "- bar"] ]})
    by (vm_compute; reflexivity).
  split; [exact Hparse|].
  apply (missing_key_exit_status_is_zero
           cfg_without_blank "J" (Some "c.cfg") _ Hparse).
  vm_compute; reflexivity.
Defined.

(** A missing file, by contrast, ends the process with status 1. *)
Lemma missing_file_exit_status_is_one fs config_key filename suppress :
  fs !! default "PlatformChargeback.cfg" filename = None →
  get_config_value fs config_key filename suppress = Exit 1.
Proof.
  intros Hmissing. unfold get_config_value, cfg_results, get_useful_lines.
  rewrite Hmissing. reflexivity.
Qed.

(** ** The catalog count *)

(** C10: without a [bucket] attribute [files_present] returns [None] for
    every prefix and every world, and leaves the world as it is; when it
    returns an integer the object has a [bucket] attribute. *)
Theorem files_present_local_only {R} `{!S3Api R}
    (self : attrs) (prefix : value) (w : world R) :
  (hasattr self "bucket" = false →
   files_present self prefix w = (Return VNone, w))
  ∧ (∀ n w', files_present self prefix w = (Return (VInt n), w') →
     hasattr self "bucket" = true).
Proof.
  unfold files_present. split.
  - intros Hlocal. rewrite Hlocal. reflexivity.
  - intros n w' Hint. destruct (hasattr self "bucket"); [reflexivity|].
    discriminate Hint.
Qed.

Lemma files_present_local_only_witness :
  hasattr (∅ : attrs) "bucket" = false
  ∧ files_present ∅ (VStr "2020")
      (local_world {[ "202001.csv" := "a,b" ]} None)
    = (Return VNone, local_world {[ "202001.csv" := "a,b" ]} None).
Proof.
  split; [reflexivity|].
  apply (files_present_local_only (∅ : attrs) (VStr "2020")
           (local_world {[ "202001.csv" := "a,b" ]} None)).
  reflexivity.
Defined.

(** With neither [VCAP_SERVICES] nor [aws.cfg], and remote access not
    required, the constructor sets [s3_only] and nothing else. *)
Lemma S3Initializer_local_only {R} `{!S3Api R}
    (self : attrs) (s3_only : value) (w : world R) :
  w_env w = None → w_fs w !! "aws.cfg" = None → truthy s3_only = false →
  S3Initializer___init__ self s3_only w
  = (Return (<["s3_only" := s3_only]> self), w).
Proof.
  intros Henv Hcfg Hopt. unfold S3Initializer___init__.
  rewrite Henv. unfold mbind, M_bind, os_path_exists. rewrite Hcfg. simpl.
  rewrite Hopt. reflexivity.
Qed.

(** A [FileManager] built there has no [bucket] attribute. *)
Lemma FileManager_local_only {R} `{!S3Api R} (s3_only : value) (w : world R) :
  w_env w = None → w_fs w !! "aws.cfg" = None → truthy s3_only = false →
  FileManager___init__ s3_only w = (Return {[ "s3_only" := s3_only ]}, w)
  ∧ hasattr ({[ "s3_only" := s3_only ]} : attrs) "bucket" = false.
Proof.
  intros Henv Hcfg Hopt. split; [|reflexivity].
  now apply S3Initializer_local_only.
Qed.

(** ** Fields by number *)

Lemma py_index_nonneg {A} (l : list A) (i : Z) (x : A) :
  0 ≤ i → l !! Z.to_nat i = Some x → py_index l i = Return x.
Proof.
  intros Hi Hx. unfold py_index.
  assert (Hlt : (Z.to_nat i < List.length l)%nat)
    by (apply lookup_lt_is_Some; eauto).
  destruct (Z.ltb_spec i 0); [lia|].
  destruct (Z.leb_spec 0 i); [|lia].
  destruct (Z.ltb_spec i (Z.of_nat (List.length l))); [|lia].
  simpl. now rewrite Hx.
Qed.

Lemma py_index_negative {A} (l : list A) (i : Z) (x : A) :
  i < 0 → 0 ≤ i + Z.of_nat (List.length l) →
  l !! Z.to_nat (i + Z.of_nat (List.length l)) = Some x →
  py_index l i = Return x.
Proof.
  intros Hneg Hi Hx. unfold py_index.
  destruct (Z.ltb_spec i 0); [|lia].
  destruct (Z.leb_spec 0 (i + Z.of_nat (List.length l))); [|lia].
  destruct (Z.ltb_spec (i + Z.of_nat (List.length l))
                       (Z.of_nat (List.length l))); [|lia].
  simpl. now rewrite Hx.
Qed.

Lemma py_index_out_of_range {A} (l : list A) (i : Z) :
  i < - Z.of_nat (List.length l) ∨ Z.of_nat (List.length l) ≤ i →
  py_index l i = Raise IndexError.
Proof.
  intros Hout. unfold py_index.
  destruct (Z.ltb_spec i 0).
  - destruct (Z.leb_spec 0 (i + Z.of_nat (List.length l))); [|reflexivity].
    destruct (Z.ltb_spec (i + Z.of_nat (List.length l))
                         (Z.of_nat (List.length l))); [lia|reflexivity].
  - destruct (Z.leb_spec 0 i); [|lia].
    destruct (Z.ltb_spec i (Z.of_nat (List.length l))); [lia|reflexivity].
Qed.

(** What [column_by_number] does over the whole range of numbers: above the
    number of fields it ends the process; from 1 to the number of fields it
    returns that field; from 0 down it counts from the end of the record,
    and raises once it has run past its start. *)
Lemma column_by_number_cases (self : attrs) (words : list string) (n : Z) :
  self !! "words" = Some (VList words) →
  let k := Z.of_nat (List.length words) in
  (k < n → column_by_number self n = Exit 0)
  ∧ (1 ≤ n ≤ k →
     ∃ field, words !! Z.to_nat (n - 1) = Some field
              ∧ column_by_number self n = Return field)
  ∧ (1 - k ≤ n ≤ 0 →
     ∃ field, words !! Z.to_nat (k + n - 1) = Some field
              ∧ column_by_number self n = Return field)
  ∧ (n < 1 - k → column_by_number self n = Raise IndexError).
Proof.
  intros Hwords k. unfold column_by_number, getattr. rewrite Hwords. simpl.
  fold k. repeat split.
  - intros Hn. destruct (Z.gtb_spec n k); [reflexivity|lia].
  - intros Hn. destruct (Z.gtb_spec n k); [lia|].
    destruct (lookup_lt_is_Some_2 words (Z.to_nat (n - 1))) as [x Hx];
      [unfold k in *; lia|].
    exists x. split; [exact Hx|]. apply py_index_nonneg; [lia|exact Hx].
  - intros Hn. destruct (Z.gtb_spec n k); [lia|].
    destruct (lookup_lt_is_Some_2 words (Z.to_nat (k + n - 1))) as [x Hx];
      [unfold k in *; lia|].
    exists x. split; [exact Hx|].
    apply py_index_negative; [lia|unfold k in *; lia|].
    replace (n - 1 + Z.of_nat (List.length words)) with (k + n - 1)
      by (unfold k; lia).
    exact Hx.
  - intros Hn. destruct (Z.gtb_spec n k); [lia|].
    apply py_index_out_of_range. unfold k in *. lia.
Qed.

(** C7, at the failing input: on a record of three fields, column number 0
    is below the 1-based range; it is answered with the last field instead
    of a fatal error. *)
Theorem column_by_number_zero_returns_last_field :
  column_by_number (next_record ∅ "x,y,z") 0 = Return "z".
Proof. vm_compute. reflexivity. Qed.

(** ** Blank lines *)

Lemma readlines_not_empty (text : string) :
  Forall (λ line, (0 <? String.length line)%nat = true) (readlines text).
Proof.
  induction text as [|c rest IH]; simpl; [constructor|].
  destruct (Ascii.eqb c LF).
  - constructor; [reflexivity|exact IH].
  - destruct (readlines rest) as [|l ls].
    + repeat constructor.
    + inversion IH; subst. constructor; [reflexivity|assumption].
Qed.

Lemma filter_ext_Forall {A} (f g : A → bool) (l : list A) :
  Forall (λ x, f x = g x) l → List.filter f l = List.filter g l.
Proof.
  induction 1 as [|x l Hx _ IH]; simpl; [reflexivity|].
  rewrite Hx, IH. reflexivity.
Qed.

(** The length test of [get_useful_lines] never fails: a line read from a
    file holds its newline at least.  Only comments are left out. *)
Lemma get_useful_lines_keeps_blank_lines (fs : files) filename text :
  fs !! filename = Some text →
  get_useful_lines fs filename
  = Return (rstrip <$>
              List.filter (λ line, negb (startswith "#" line)) (readlines text)).
Proof.
  intros Hfile. unfold get_useful_lines. rewrite Hfile. do 2 f_equal.
  apply filter_ext_Forall.
  eapply Forall_impl; [apply readlines_not_empty|].
  intros line Hline. simpl in Hline. rewrite Hline. apply andb_true_r.
Qed.

(** C5, at the failing input: a blank line between the two members of a
    list key becomes a third, empty member; the same file without the blank
    line gives the two members only. *)
Theorem blank_line_in_list_adds_member :
  get_config_value cfg_with_blank "K" (Some "c.cfg") false
  = Return (VList ["- foo"; ""; "- bar"])
  ∧ get_config_value cfg_without_blank "K" (Some "c.cfg") false
    = Return (VList ["- foo"; "- bar"]).
Proof. split; vm_compute; reflexivity. Qed.

(** A blank line after a scalar key breaks the parsing. *)
Lemma blank_line_after_scalar_raises :
  get_config_value {[ "c.cfg" := unlines ["a: 1"; ""; "b: 2"] ]}
                   "a" (Some "c.cfg") false
  = Raise AttributeError.
Proof. vm_compute. reflexivity. Qed.

(** ** Credential resolution *)

(** Case analysis on the outcome a hypothesis is stuck on. *)
Ltac step_in H :=
  match type of H with
  | context [match ?o with Return _ => _ | Exit _ => _ | Raise _ => _ end] =>
      let E := fresh "E" in
      destruct o eqn:E; simpl in H; try discriminate H
  | context [match ?o with Some _ => _ | None => _ end] =>
      let E := fresh "E" in
      destruct o eqn:E; simpl in H; try discriminate H
  | context [if ?b then _ else _] =>
      let E := fresh "E" in
      destruct b eqn:E; simpl in H; try discriminate H
  end.

Lemma get_config_value_suppress_irrelevant fs config_key filename v :
  get_config_value fs config_key filename false = Return v →
  get_config_value fs config_key filename true = Return v.
Proof.
  unfold get_config_value. intros Hfound.
  destruct (cfg_results fs _) as [results| |]; simpl in *; try discriminate.
  destruct (results !! config_key); [exact Hfound|discriminate].
Qed.

(** Resolved from [aws.cfg], the attribute [kms_key_id] is always the value
    of the key [bucket]: no other key of the file is read for it. *)
Lemma aws_cfg_kms_key_id_is_bucket_value {R} `{!S3Api R}
    (self0 self : attrs) (s3_only : value) (w w' : world R) :
  w_env w = None → is_Some (w_fs w !! "aws.cfg") →
  S3Initializer___init__ self0 s3_only w = (Return self, w') →
  is_Some (self !! "bucket") ∧ self !! "kms_key_id" = self !! "bucket".
Proof.
  intros Henv Hcfg Hinit. unfold S3Initializer___init__ in Hinit.
  rewrite Henv in Hinit.
  unfold mbind, M_bind, os_path_exists, config_value in Hinit.
  rewrite bool_decide_eq_true_2 in Hinit by exact Hcfg. simpl in Hinit.
  repeat step_in Hinit.
  apply get_config_value_suppress_irrelevant in E1.
  rewrite E1 in E2. inversion E2; subst.
  inversion Hinit; subst.
  rewrite lookup_insert_eq, lookup_insert_ne, lookup_insert_eq by discriminate.
  split; [eauto|reflexivity].
Qed.

(** C3, at the failing input: [aws.cfg] names the bucket [my-bucket] and the
    encryption key [arn:...:key/1234abcd] under its own key; the key id that
    is stored is the bucket name. *)
Theorem aws_cfg_kms_key_id_is_bucket :
  ∃ self w,
    S3Initializer___init__ ∅ VNone (local_world aws_cfg_with_kms None)
    = (Return self, w)
    ∧ self !! "bucket" = Some (VStr "my-bucket")
    ∧ self !! "kms_key_id" = Some (VStr "my-bucket").
Proof.
  eexists _, _. split; [vm_compute; reflexivity|].
  split; vm_compute; reflexivity.
Qed.

Lemma split_no_sep (sep : ascii) (s : string) :
  contains sep s = false → split sep s = [s].
Proof.
  induction s as [|c s IH]; simpl; [reflexivity|].
  destruct (Ascii.eqb c sep); [discriminate|].
  intros Hs. now rewrite (IH Hs).
Qed.

Lemma split_at_sep (sep : ascii) (s t : string) :
  contains sep s = false →
  split sep (s +:+ String sep t) = s :: split sep t.
Proof.
  induction s as [|c s IH]; simpl.
  - now rewrite Ascii.eqb_refl.
  - destruct (Ascii.eqb c sep); [discriminate|].
    intros Hs. now rewrite (IH Hs).
Qed.

(** Resolved from the service binding, an encryption key written
    [prefix/key-id] is stored as [key-id]. *)
Lemma vcap_kms_key_id_is_trailing_segment {R} `{!S3Api R}
    (env : vcap_services) (b : binding) (rest : list binding)
    (access bucket secret prefix key_id : string)
    (self0 : attrs) (s3_only : value) (w : world R) :
  w_env w = Some env → env !! "aws-s3" = Some (b :: rest) →
  credentials b !! "access_key_id" = Some access →
  credentials b !! "bucket" = Some bucket →
  credentials b !! "secret_access_key" = Some secret →
  credentials b !! "kms_key_arn" = Some (prefix +:+ String "/" key_id) →
  contains "/" prefix = false → contains "/" key_id = false →
  ∃ self, S3Initializer___init__ self0 s3_only w = (Return self, w)
          ∧ self !! "kms_key_id" = Some (VStr key_id).
Proof.
  intros Henv Hsvc Ha Hb Hs Hk Hprefix Hid.
  unfold S3Initializer___init__. rewrite Henv.
  unfold mbind, M_bind, get_service_from_vcap_services, lift, dict_get.
  rewrite Henv, Hsvc. simpl. rewrite Ha, Hb, Hs, Hk. simpl.
  rewrite split_at_sep, split_no_sep by assumption. simpl.
  eexists. split; [reflexivity|]. apply lookup_insert_eq.
Qed.

(** ** Upload at the close of a write *)

(** [S3Initializer.__init__] sets its five attributes and no other. *)
Lemma S3Initializer_sets_only {R} `{!S3Api R}
    (self0 self : attrs) (s3_only : value) (w w' : world R) (name : string) :
  S3Initializer___init__ self0 s3_only w = (Return self, w') →
  name ∉ ["s3_only"; "access_key_id"; "bucket"; "secret_access_key";
          "kms_key_id"] →
  self !! name = self0 !! name.
Proof.
  intros Hinit Hname.
  assert (Hne : name ≠ "s3_only" ∧ name ≠ "access_key_id" ∧ name ≠ "bucket"
                ∧ name ≠ "secret_access_key" ∧ name ≠ "kms_key_id").
  { repeat split; intros ->; apply Hname; set_solver. }
  destruct Hne as (H1 & H2 & H3 & H4 & H5).
  unfold S3Initializer___init__ in Hinit.
  destruct (w_env w) eqn:Henv.
  - unfold mbind, M_bind, get_service_from_vcap_services, lift in Hinit.
    rewrite Henv in Hinit.
    repeat step_in Hinit; inversion Hinit; subst;
      rewrite !lookup_insert_ne by congruence; reflexivity.
  - unfold mbind, M_bind, os_path_exists, config_value, lift in Hinit.
    simpl in Hinit.
    repeat step_in Hinit; inversion Hinit; subst;
      rewrite !lookup_insert_ne by congruence; reflexivity.
Qed.

(** No object built by [S3Writer.__init__] has an attribute [kms_key_arn]. *)
Lemma S3Writer_has_no_kms_key_arn {R} `{!S3Api R}
    (filename : string) (s3_only : value) (self : attrs) (w w' : world R) :
  S3Writer___init__ filename s3_only w = (Return self, w') →
  hasattr self "kms_key_arn" = false.
Proof.
  intros Hinit. unfold hasattr.
  rewrite (S3Initializer_sets_only _ _ _ _ _ "kms_key_arn" Hinit).
  - reflexivity.
  - rewrite !elem_of_cons, elem_of_nil. intuition discriminate.
Qed.

Lemma S3Writer_enter_sets_file {R} `{!S3Api R}
    (self self' : attrs) (file : value) (w w' : world R) :
  S3Writer___enter__ self w = (Return (self', file), w') →
  self' = <["file" := file]> self.
Proof.
  unfold S3Writer___enter__, mbind, M_bind, lift, os_path_exists,
    shutil_copy2, open_w, emit.
  intros Henter. simpl in Henter.
  repeat step_in Henter; inversion Henter; reflexivity.
Qed.

(** Without that attribute, the close of the write scope adds nothing to the
    log, or one upload whose [ExtraArgs] is [None]. *)
Lemma S3Writer_exit_upload_args {R} `{!S3Api R}
    (self : attrs) (o : outcome unit) (w w' : world R) :
  hasattr self "kms_key_arn" = false →
  S3Writer___exit__ self w = (o, w') →
  w_log w' = w_log w
  ∨ ∃ filename bucket,
      w_log w' = (w_log w ++ [EvUpload filename bucket filename None])%list.
Proof.
  intros Hno. unfold S3Writer___exit__. rewrite Hno.
  unfold mbind, M_bind, lift, upload_file, getattr, get_s3_client,
    outcome_bind, as_str.
  intros Hexit.
  repeat (simpl in Hexit;
          match type of Hexit with
          | context [match ?x with _ => _ end] => destruct x eqn:?
          end);
    inversion Hexit; subst; simpl; eauto.
Qed.

(** The whole scope, from construction to close: whatever the credentials
    hold, the upload carries no encryption parameters. *)
Lemma S3Writer_scope_upload_args {R} `{!S3Api R}
    (filename : string) (s3_only : value) (self self' : attrs) (file : value)
    (o : outcome unit) (w w1 w2 w3 w4 : world R) :
  S3Writer___init__ filename s3_only w = (Return self, w1) →
  S3Writer___enter__ self w1 = (Return (self', file), w2) →
  S3Writer___exit__ self' w3 = (o, w4) →
  w_log w4 = w_log w3
  ∨ ∃ name bucket,
      w_log w4 = (w_log w3 ++ [EvUpload name bucket name None])%list.
Proof.
  intros Hinit Henter Hexit.
  apply (S3Writer_exit_upload_args self' o w3 w4); [|exact Hexit].
  rewrite (S3Writer_enter_sets_file _ _ _ _ _ Henter).
  unfold hasattr. rewrite lookup_insert_ne by discriminate.
  exact (S3Writer_has_no_kms_key_arn _ _ _ _ _ Hinit).
Qed.

(** C4, at the failing input: the binding carries the encryption key
    [1234abcd], the constructor stores it, and the upload at the close of
    the write scope is made with no [ExtraArgs]. *)
Theorem S3Writer_upload_without_encryption :
  let w := local_world {[ "out.txt" := "old" ]} (Some vcap_with_kms) in
  (∃ self w1, S3Writer___init__ "out.txt" VNone w = (Return self, w1)
              ∧ self !! "bucket" = Some (VStr "my-bucket")
              ∧ self !! "kms_key_id" = Some (VStr "1234abcd"))
  ∧ ∃ w',
      with_S3Writer "out.txt" VNone (λ file, print_to file "new") w
      = (Return tt, w')
      ∧ w_log w' = [EvCopy2 "out.txt" "out.txt.sav";
                    EvOpenW "out.txt";
                    EvWrite "out.txt" ("new" +:+ String LF "");
                    EvUpload "out.txt" (VStr "my-bucket") "out.txt" None].
Proof.
  split.
  - eexists _, _. split; [vm_compute; reflexivity|].
    split; vm_compute; reflexivity.
  - eexists. split; vm_compute; reflexivity.
Qed.

(** ** Backup before truncation *)

Lemma length_append (s t : string) :
  String.length (s +:+ t) = (String.length s + String.length t)%nat.
Proof. induction s as [|c s IH]; simpl; [reflexivity|now rewrite IH]. Qed.

Lemma sav_is_another_name (filename : string) :
  filename +:+ ".sav" ≠ filename.
Proof.
  intros Heq. apply (f_equal String.length) in Heq.
  rewrite length_append in Heq. simpl in Heq. lia.
Qed.

(** [S3Writer.__enter__] over an existing file: the copy to [<name>.sav] is
    made on the world as it was found, and the truncation on the world the
    copy has left, in which both names hold the old text. *)
Lemma S3Writer_enter_backs_up_first {R} `{!S3Api R}
    (self : attrs) (filename text : string) (w : world R) :
  self !! "filename" = Some (VStr filename) →
  w_fs w !! filename = Some text →
  ∃ w1 w2,
    emit (EvCopy2 filename (filename +:+ ".sav")) w = (Return tt, w1)
    ∧ emit (EvOpenW filename) w1 = (Return tt, w2)
    ∧ S3Writer___enter__ self w
      = (Return (<["file" := VWriter filename]> self, VWriter filename), w2)
    ∧ w_fs w1 !! (filename +:+ ".sav") = Some text
    ∧ w_fs w1 !! filename = Some text
    ∧ w_fs w2 !! (filename +:+ ".sav") = Some text
    ∧ w_fs w2 !! filename = Some ""
    ∧ w_log w2 = (w_log w ++ [EvCopy2 filename (filename +:+ ".sav");
                              EvOpenW filename])%list.
Proof.
  intros Hname Hfile. eexists _, _.
  split; [reflexivity|]. split; [reflexivity|].
  pose proof (sav_is_another_name filename) as Hsav.
  split; [|simpl; rewrite Hfile; split; [|split; [|split; [|split]]]].
  - unfold S3Writer___enter__, mbind, M_bind, lift, getattr, os_path_exists,
      shutil_copy2, open_w.
    rewrite Hname. simpl.
    rewrite bool_decide_eq_true_2 by eauto.
    rewrite Hfile. unfold emit. simpl. rewrite Hfile. reflexivity.
  - apply lookup_insert_eq.
  - rewrite lookup_insert_ne by exact Hsav. exact Hfile.
  - rewrite lookup_insert_ne by congruence. apply lookup_insert_eq.
  - apply lookup_insert_eq.
  - now rewrite <- app_assoc.
Qed.

(** [CsvWriter.__enter__] truncates the file and does nothing else: a file
    [<name>.sav] is neither created nor changed. *)
Lemma CsvWriter_enter_only_truncates {R} `{!S3Api R}
    (self : attrs) (filename : string) (w : world R) :
  self !! "filename" = Some (VStr filename) →
  ∃ w', CsvWriter___enter__ self w
        = (Return (<["file" := VWriter filename]> self), w')
        ∧ w_log w' = (w_log w ++ [EvOpenW filename])%list
        ∧ w_fs w' !! filename = Some ""
        ∧ w_fs w' !! (filename +:+ ".sav") = w_fs w !! (filename +:+ ".sav").
Proof.
  intros Hname. eexists. split; [|split; [|split]].
  - unfold CsvWriter___enter__, mbind, M_bind, lift, getattr, open_w.
    rewrite Hname. reflexivity.
  - reflexivity.
  - simpl. apply lookup_insert_eq.
  - simpl. apply lookup_insert_ne. intros Heq.
    exact (sav_is_another_name filename (eq_sym Heq)).
Qed.

(** C1, at the failing input: [out.csv] holds the text [old]; entering the
    write scope of a [CsvWriter] on that name truncates the file, and no
    file [out.csv.sav] exists, before or after. *)
Theorem CsvWriter_enter_makes_no_backup :
  let w := local_world {[ "out.csv" := "old" ]} None in
  ∃ self self' w1 w2,
    CsvWriter___init__ "out.csv" None w = (Return self, w1)
    ∧ CsvWriter___enter__ self w1 = (Return self', w2)
    ∧ w_log w2 = [EvOpenW "out.csv"]
    ∧ w_fs w2 !! "out.csv" = Some ""
    ∧ w_fs w2 !! "out.csv.sav" = None.
Proof.
  eexists _, _, _, _.
  split; [vm_compute; reflexivity|].
  split; [vm_compute; reflexivity|].
  repeat split; vm_compute; reflexivity.
Qed.

(** ** Totals of a column *)

Lemma enumerate_into_absent (names : list string) (num : nat)
    (column_index : gmap string nat) (name : string) :
  name ∉ names → column_index !! name = None →
  enumerate_into num names column_index !! name = None.
Proof.
  revert num column_index.
  induction names as [|n names IH]; intros num column_index Hnot Hnone;
    simpl; [exact Hnone|].
  apply not_elem_of_cons in Hnot as [Hne Hnot].
  apply IH; [exact Hnot|].
  rewrite lookup_insert_ne by congruence. exact Hnone.
Qed.

Section TotalsProperties.
Context {R : Type} `{!S3Api R}.
Variable float_of_str : string → option float.

(** [CsvReader.__enter__] on a file that is there: the first line is the
    header, the others wait to be read. *)
Lemma CsvReader_enter_opens (self : attrs)
    (csv_filename text header_line : string) (lines : list string)
    (w : world R) :
  self !! "filename" = Some (VStr csv_filename) →
  w_fs w !! csv_filename = Some text →
  readlines text = header_line :: lines →
  CsvReader___enter__ self w
  = (Return
       (<["column_index" :=
            VDict (enumerate_into 0 (split "," (strip header_line)) ∅)]>
          (<["column_names" := VList (split "," (strip header_line))]>
             (<["header" := VStr (strip header_line)]>
                (<["file" := VReader lines]> self)))),
     w).
Proof.
  intros Hname Hfile Hlines.
  unfold CsvReader___enter__, mbind, M_bind, lift, open_r, getattr.
  rewrite Hname. simpl. rewrite Hfile, Hlines. reflexivity.
Qed.

(** In local-only mode, what [get_total_from_csv] does once the file is
    open: the header is the first line, the loop runs over the others. *)
Lemma get_total_from_csv_local (w : world R)
    (csv_filename key_column text header_line : string)
    (lines : list string) :
  w_env w = None → w_fs w !! "aws.cfg" = None →
  w_fs w !! csv_filename = Some text →
  readlines text = header_line :: lines →
  let column_index :=
    enumerate_into 0 (split "," (strip header_line)) ∅ in
  let csv_reader : attrs :=
    <["file" := VReader []]>
      (<["column_index" := VDict column_index]>
         (<["column_names" := VList (split "," (strip header_line))]>
            (<["header" := VStr (strip header_line)]>
               (<["file" := VReader lines]>
                  (<["filename" := VStr csv_filename]>
                     (<["s3_only" := VNone]> ∅)))))) in
  get_total_from_csv float_of_str csv_filename key_column w
  = (if bool_decide (is_Some (column_index !! key_column))
     then total_loop float_of_str key_column csv_reader 0%float lines
     else Exit 0,
     w).
Proof.
  intros Henv Hcfg Hfile Hlines column_index csv_reader.
  unfold get_total_from_csv, CsvReader___init__.
  unfold mbind at 1. unfold M_bind at 1. unfold mbind at 1. unfold M_bind at 1.
  rewrite (S3Initializer_local_only ∅ VNone w Henv Hcfg eq_refl).
  replace (hasattr (<["filename" := VStr csv_filename]>
                      (<["s3_only" := VNone]> (∅ : attrs))) "bucket")
    with false by reflexivity.
  simpl.
  unfold mbind at 1. unfold M_bind at 1.
  rewrite (CsvReader_enter_opens _ csv_filename text header_line lines w)
    by (try apply lookup_insert_eq; assumption).
  fold column_index.
  unfold finally, mbind, M_bind, lift, column_present, CsvReader___exit__,
    file_readlines, getattr.
  rewrite lookup_insert_eq. rewrite !lookup_insert_ne by discriminate.
  rewrite lookup_insert_eq. simpl. fold csv_reader.
  destruct (bool_decide (is_Some (column_index !! key_column))); simpl.
  - destruct (total_loop float_of_str key_column csv_reader 0 lines);
      reflexivity.
  - reflexivity.
Qed.

(** A specification that is not itself the name of a column ends the
    process, before any record is read. *)
Lemma get_total_from_csv_unknown_column (w : world R)
    (csv_filename key_column text header_line : string)
    (lines : list string) :
  w_env w = None → w_fs w !! "aws.cfg" = None →
  w_fs w !! csv_filename = Some text →
  readlines text = header_line :: lines →
  key_column ∉ split "," (strip header_line) →
  get_total_from_csv float_of_str csv_filename key_column w = (Exit 0, w).
Proof.
  intros Henv Hcfg Hfile Hlines Hnot.
  rewrite (get_total_from_csv_local w _ _ _ _ _ Henv Hcfg Hfile Hlines).
  rewrite enumerate_into_absent by (exact Hnot || apply lookup_empty).
  reflexivity.
Qed.

(** [column] on the record just read: the field at the offset of the
    column. *)
Lemma column_of_record (self : attrs) (line : string)
    (column_index : gmap string nat) (column_name : string) (num : nat)
    (field : string) :
  self !! "column_index" = Some (VDict column_index) →
  column_index !! column_name = Some num →
  split "," (strip line) !! num = Some field →
  column (next_record self line) column_name = Return field.
Proof.
  intros Hindex Hnum Hfield. unfold column, getattr, next_record.
  rewrite lookup_insert_eq. rewrite !lookup_insert_ne by discriminate.
  rewrite Hindex. simpl. rewrite Hnum.
  apply py_index_nonneg; [lia|now rewrite Nat2Z.id].
Qed.

(** The loop over a single column adds up, in order, the converted fields
    of that column. *)
Lemma total_loop_single_column (key_column : string) (num : nat)
    (column_index : gmap string nat) (lines : list string) (xs : list float) :
  contains "*" key_column = false →
  column_index !! key_column = Some num →
  Forall2 (field_is float_of_str num) lines xs →
  ∀ (csv_reader : attrs) (total : float),
    csv_reader !! "column_index" = Some (VDict column_index) →
    total_loop float_of_str key_column csv_reader total lines
    = Return (fold_left PrimFloat.add xs total).
Proof.
  intros Hstar Hnum Hfields.
  induction Hfields as [|line x lines xs (field & Hfield & Hx) _ IH];
    intros csv_reader total Hindex; simpl; [reflexivity|].
  rewrite Hstar.
  rewrite (column_of_record _ line column_index key_column num field)
    by assumption.
  simpl. unfold py_float. rewrite Hx. simpl.
  apply IH. unfold next_record.
  rewrite !lookup_insert_ne by discriminate. exact Hindex.
Qed.

(** With the name of a single column, in local-only mode, the total is the
    sum of the fields of that column over all records. *)
Lemma get_total_from_csv_single_column (w : world R)
    (csv_filename key_column text header_line : string)
    (lines : list string) (num : nat) (xs : list float) :
  w_env w = None → w_fs w !! "aws.cfg" = None →
  w_fs w !! csv_filename = Some text →
  readlines text = header_line :: lines →
  contains "*" key_column = false →
  enumerate_into 0 (split "," (strip header_line)) ∅ !! key_column
    = Some num →
  Forall2 (field_is float_of_str num) lines xs →
  get_total_from_csv float_of_str csv_filename key_column w
  = (Return (fold_left PrimFloat.add xs 0%float), w).
Proof.
  intros Henv Hcfg Hfile Hlines Hstar Hnum Hfields.
  rewrite (get_total_from_csv_local w _ _ _ _ _ Henv Hcfg Hfile Hlines).
  rewrite Hnum. rewrite bool_decide_eq_true_2 by eauto.
  f_equal.
  apply (total_loop_single_column key_column num _ lines xs Hstar Hnum Hfields).
  rewrite lookup_insert_ne by discriminate. apply lookup_insert_eq.
Qed.

End TotalsProperties.

(** C2, at the failing input: the header is [a,b], the one record is
    [2.0,3.0] and the specification is [a*b]; whatever the conversion of
    strings to numbers, the process ends and no total is returned. *)
Theorem get_total_from_csv_product_exits (float_of_str : string → option float) :
  get_total_from_csv float_of_str "t.csv" "a*b"
    (local_world {[ "t.csv" := unlines ["a,b"; "2.0,3.0"] ]} None)
  = (Exit 0, local_world {[ "t.csv" := unlines ["a,b"; "2.0,3.0"] ]} None).
Proof.
  apply (get_total_from_csv_unknown_column float_of_str _ "t.csv" "a*b"
           (unlines ["a,b"; "2.0,3.0"]) ("a,b" +:+ String LF "")
           ["2.0,3.0" +:+ String LF ""]);
    try (vm_compute; reflexivity).
  replace (split "," (strip ("a,b" +:+ String LF ""))) with ["a"; "b"]
    by (vm_compute; reflexivity).
  rewrite !elem_of_cons, elem_of_nil. intuition discriminate.
Qed.

(** The single-column example of the same sentence: rows [1.5] and [2.5]
    under the header [a] add up to 4.0. *)
Lemma get_total_from_csv_single_column_example
    (float_of_str : string → option float) :
  float_of_str "1.5" = Some 1.5%float →
  float_of_str "2.5" = Some 2.5%float →
  get_total_from_csv float_of_str "t.csv" "a"
    (local_world {[ "t.csv" := unlines ["a"; "1.5"; "2.5"] ]} None)
  = (Return 4%float,
     local_world {[ "t.csv" := unlines ["a"; "1.5"; "2.5"] ]} None).
Proof.
  intros H15 H25.
  apply (get_total_from_csv_single_column float_of_str _ "t.csv" "a"
           (unlines ["a"; "1.5"; "2.5"]) ("a" +:+ String LF "")
           ["1.5" +:+ String LF ""; "2.5" +:+ String LF ""]
           0 [1.5%float; 2.5%float]);
    try (vm_compute; reflexivity).
  repeat constructor.
  - exists "1.5". split; [vm_compute; reflexivity|exact H15].
  - exists "2.5". split; [vm_compute; reflexivity|exact H25].
Qed.

(** ** Round trip of a configuration file *)

(** *** Strings *)

Lemma contains_app (c : ascii) (s t : string) :
  contains c (s +:+ t) = contains c s || contains c t.
Proof.
  induction s as [|d s IH]; simpl; [reflexivity|].
  destruct (Ascii.eqb d c); [reflexivity|exact IH].
Qed.

Lemma app_not_empty_r (s t : string) : t ≠ "" → s +:+ t ≠ "".
Proof. destruct s; simpl; [tauto|discriminate]. Qed.

Lemma rstrip_cons_keep (c : ascii) (s : string) :
  is_space c = false → rstrip (String c s) = String c (rstrip s).
Proof. intros Hc. simpl. rewrite Hc. now destruct (rstrip s). Qed.

Lemma rstrip_cons_not_empty (c : ascii) (s : string) :
  rstrip s ≠ "" → rstrip (String c s) = String c (rstrip s).
Proof. intros Hs. simpl. destruct (rstrip s); [contradiction|reflexivity]. Qed.

Lemma rstrip_app_not_empty (s t : string) :
  rstrip t ≠ "" → rstrip (s +:+ t) = s +:+ rstrip t.
Proof.
  intros Ht. induction s as [|c s IH]; [reflexivity|].
  change (String c s +:+ t) with (String c (s +:+ t)).
  rewrite rstrip_cons_not_empty; rewrite IH; [reflexivity|].
  now apply app_not_empty_r.
Qed.

Lemma rstrip_app_space (s : string) (c : ascii) :
  is_space c = true → rstrip (s +:+ String c "") = rstrip s.
Proof.
  intros Hc. induction s as [|d s IH]; simpl.
  - now rewrite Hc.
  - now rewrite IH.
Qed.

Lemma rstrip_idempotent (s : string) : rstrip (rstrip s) = rstrip s.
Proof.
  induction s as [|c s IH]; [reflexivity|].
  simpl. destruct (rstrip s) as [|d r] eqn:Hr.
  - destruct (is_space c) eqn:Hc; simpl; [reflexivity|now rewrite Hc].
  - rewrite rstrip_cons_not_empty; rewrite IH; [reflexivity|discriminate].
Qed.

Lemma contains_rstrip (c : ascii) (s : string) :
  is_space c = false → contains c (rstrip s) = contains c s.
Proof.
  intros Hc. induction s as [|d s IH]; [reflexivity|].
  simpl. destruct (rstrip s) as [|e r] eqn:Hr.
  - simpl in IH. destruct (Ascii.eqb_spec d c) as [->|Hne].
    + rewrite Hc. simpl. now rewrite Ascii.eqb_refl.
    + destruct (is_space d); simpl.
      * exact IH.
      * apply Ascii.eqb_neq in Hne. now rewrite Hne.
  - simpl. simpl in IH. rewrite IH. reflexivity.
Qed.

Lemma contains_not_empty (c : ascii) (s : string) :
  contains c s = true → s ≠ "".
Proof. destruct s; [discriminate|discriminate]. Qed.

Lemma lstrip_keep (c : ascii) (s : string) :
  is_space c = false → lstrip (String c s) = String c s.
Proof. intros Hc. simpl. now rewrite Hc. Qed.

Lemma strip_not_empty (s : string) : strip s ≠ "" → rstrip s ≠ "".
Proof. unfold strip. intros Hs Hr. rewrite Hr in Hs. now apply Hs. Qed.

Lemma strip_rstrip (s : string) : strip (rstrip s) = strip s.
Proof. unfold strip. now rewrite rstrip_idempotent. Qed.

Lemma split1_at_sep (sep : ascii) (s t : string) :
  contains sep s = false → split1 sep (s +:+ String sep t) = [s; t].
Proof.
  induction s as [|c s IH]; simpl.
  - now rewrite Ascii.eqb_refl.
  - destruct (Ascii.eqb c sep); [discriminate|].
    intros Hs. now rewrite (IH Hs).
Qed.

Lemma startswith_cons (c d : ascii) (s : string) :
  startswith (String c "") (String d s) = Ascii.eqb c d.
Proof.
  unfold startswith. simpl.
  destruct (ascii_dec c d) as [->|Hne].
  - rewrite Ascii.eqb_refl. now destruct s.
  - symmetry. now apply Ascii.eqb_neq.
Qed.

Lemma startswith_app_LF (c : ascii) (s : string) :
  Ascii.eqb c LF = false →
  startswith (String c "") (s +:+ String LF "") = startswith (String c "") s.
Proof.
  intros Hc. destruct s as [|d s].
  - change ("" +:+ String LF "") with (String LF "").
    rewrite startswith_cons. rewrite Hc. reflexivity.
  - change (String d s +:+ String LF "") with (String d (s +:+ String LF "")).
    now rewrite !startswith_cons.
Qed.

(** *** Lines of a written file *)

Lemma readlines_line (l rest : string) :
  contains LF l = false →
  readlines (l +:+ String LF rest) = (l +:+ String LF "") :: readlines rest.
Proof.
  induction l as [|c l IH]; intros Hl.
  - reflexivity.
  - simpl in Hl. destruct (Ascii.eqb c LF) eqn:Hc; [discriminate|].
    change (String c l +:+ String LF rest)
      with (String c (l +:+ String LF rest)).
    simpl. rewrite Hc. rewrite (IH Hl). reflexivity.
Qed.

Lemma readlines_unlines (ls : list string) :
  Forall (λ l, contains LF l = false) ls →
  readlines (unlines ls) = (λ l, l +:+ String LF "") <$> ls.
Proof.
  induction 1 as [|l ls Hl _ IH]; [reflexivity|].
  simpl. rewrite (readlines_line _ _ Hl). now rewrite IH.
Qed.

(** The useful lines of a file written line by line, no line being a
    comment: every line, stripped on the right. *)
Lemma get_useful_lines_unlines (fs : files) (filename : string)
    (ls : list string) :
  fs !! filename = Some (unlines ls) →
  Forall (λ l, contains LF l = false ∧ startswith "#" l = false) ls →
  get_useful_lines fs filename = Return (rstrip <$> ls).
Proof.
  intros Hfile Hls.
  rewrite (get_useful_lines_keeps_blank_lines _ _ _ Hfile).
  rewrite readlines_unlines
    by (eapply Forall_impl; [exact Hls|]; now intros l [Hl _]).
  f_equal. clear Hfile.
  induction Hls as [|l ls [Hl Hc] _ IH]; [reflexivity|].
  simpl. rewrite startswith_app_LF by reflexivity. rewrite Hc. simpl.
  rewrite rstrip_app_space by reflexivity. f_equal. exact IH.
Qed.

(** *** The parser on one line *)

Lemma key_ok_inv (k : string) :
  key_ok k = true →
  contains LF k = false ∧ contains ":" k = false
  ∧ (k = "" ∨ ∃ c k', k = String c k' ∧ is_space c = false
                      ∧ Ascii.eqb c "#" = false).
Proof.
  unfold key_ok. rewrite !andb_true_iff, !negb_true_iff.
  intros [[Hlf Hcolon] Hfirst]. split; [exact Hlf|]. split; [exact Hcolon|].
  destruct k as [|c k']; [now left|right].
  apply andb_true_iff in Hfirst as [Hsp Hhash].
  apply negb_true_iff in Hsp, Hhash. eauto.
Qed.

Lemma not_space_not_blank (c : ascii) :
  is_space c = false → Ascii.eqb " " c = false.
Proof.
  intros Hc. destruct (Ascii.eqb_spec " " c) as [<-|]; [|reflexivity].
  discriminate Hc.
Qed.

(** A line [k:t] whose key is well formed: it is no comment, it does not
    start with a space, and nothing is stripped on its left. *)
Lemma key_line_head (k t : string) :
  key_ok k = true →
  startswith "#" (k +:+ String ":" t) = false
  ∧ startswith " " (k +:+ String ":" t) = false
  ∧ lstrip (k +:+ String ":" t) = k +:+ String ":" t.
Proof.
  intros Hk. destruct (key_ok_inv k Hk) as (_ & _ & [->|(c & k' & -> & Hc & Hhash)]).
  - repeat split; reflexivity.
  - change (String c k' +:+ String ":" t) with (String c (k' +:+ String ":" t)).
    rewrite !startswith_cons. rewrite lstrip_keep by exact Hc.
    rewrite (not_space_not_blank c Hc). rewrite Ascii.eqb_sym, Hhash.
    repeat split; reflexivity.
Qed.

(** The parser on a key line that has nothing to strip on its right. *)
Lemma cfg_line_key_line (k t : string) (st st1 : cfg_state) :
  key_ok k = true → rstrip t = t → cfg_flush st = Return st1 →
  cfg_line st (k +:+ String ":" t)
  = Return {| result := if (0 <? String.length (strip t))%nat
                        then VStr (strip t) else VList [];
              key := Some k; results := results st1 |}.
Proof.
  intros Hk Ht Hflush.
  destruct (key_line_head k t Hk) as (_ & Hblank & Hleft).
  destruct (key_ok_inv k Hk) as (_ & Hcolon & _).
  assert (Hright : rstrip (k +:+ String ":" t) = k +:+ String ":" t).
  { rewrite rstrip_app_not_empty;
      rewrite rstrip_cons_keep by reflexivity; rewrite Ht;
      [reflexivity|discriminate]. }
  unfold cfg_line.
  rewrite contains_app. simpl contains. rewrite orb_true_r, Hblank. simpl.
  rewrite Hflush. simpl.
  unfold strip at 1. rewrite Hright, Hleft.
  rewrite (split1_at_sep ":" k t Hcolon).
  now destruct (0 <? String.length (strip t))%nat.
Qed.

Lemma item_ok_inv (c : string) :
  item_ok c = true →
  contains LF c = false ∧ startswith "#" c = false
  ∧ (contains ":" c = false ∨ startswith " " c = true).
Proof.
  unfold item_ok. rewrite !andb_true_iff, !negb_true_iff, orb_true_iff.
  rewrite negb_true_iff. tauto.
Qed.

(** The parser on a continuation line: one more member, stripped. *)
Lemma cfg_line_item (c : string) (l : list string) (st : cfg_state) :
  item_ok c = true → result st = VList l →
  cfg_line st (rstrip c)
  = Return {| result := VList (l ++ [strip c]); key := key st;
              results := results st |}.
Proof.
  intros Hc Hres. destruct (item_ok_inv c Hc) as (_ & _ & Hshape).
  unfold cfg_line.
  assert (Hkey : contains ":" (rstrip c)
                 && negb (startswith " " (rstrip c)) = false).
  { rewrite contains_rstrip by reflexivity.
    destruct Hshape as [Hno|Hsp]; [now rewrite Hno|].
    destruct (contains ":" c) eqn:Hcolon; [|reflexivity].
    destruct c as [|d c']; [discriminate|].
    rewrite startswith_cons in Hsp. apply Ascii.eqb_eq in Hsp. subst d.
    simpl in Hcolon.
    rewrite rstrip_cons_not_empty.
    - now rewrite startswith_cons.
    - apply (contains_not_empty ":").
      now rewrite contains_rstrip by reflexivity. }
  rewrite Hkey, Hres, strip_rstrip. reflexivity.
Qed.

(** *** The parser on an entry *)

Lemma cfg_loop_app (l1 l2 : list string) (st : cfg_state) :
  cfg_loop st (l1 ++ l2) = cfg_loop st l1 ≫= λ st', cfg_loop st' l2.
Proof.
  revert st. induction l1 as [|line l1 IH]; intros st; [reflexivity|].
  simpl. destruct (cfg_line st line) as [st'| |]; simpl; [apply IH|..];
    reflexivity.
Qed.

Lemma cfg_loop_items (items : list string) :
  forallb item_ok items = true →
  ∀ (l : list string) (k : option string) (r : gmap string value),
    cfg_loop {| result := VList l; key := k; results := r |}
             (rstrip <$> items)
    = Return {| result := VList (l ++ (strip <$> items)); key := k;
                results := r |}.
Proof.
  induction items as [|c items IH]; intros Hitems l k r.
  - simpl. now rewrite app_nil_r.
  - simpl in Hitems. apply andb_true_iff in Hitems as [Hc Hitems].
    simpl.
    rewrite (cfg_line_item c l {| result := VList l; key := k; results := r |}
               Hc eq_refl).
    simpl.
    rewrite (IH Hitems). now rewrite <- app_assoc.
Qed.

Lemma scalar_ok_inv (v : string) :
  scalar_ok v = true → contains LF v = false ∧ strip v ≠ "".
Proof.
  unfold scalar_ok. rewrite andb_true_iff, !negb_true_iff.
  intros [Hlf Hv]. split; [exact Hlf|]. now apply String.eqb_neq.
Qed.

Lemma length_not_empty (s : string) :
  s ≠ "" → (0 <? String.length s)%nat = true.
Proof. destruct s; [contradiction|reflexivity]. Qed.

(** The line of a scalar entry as the parser receives it. *)
Lemma scalar_line_rstrip (k v : string) :
  strip v ≠ "" →
  rstrip (k +:+ ": " +:+ v) = k +:+ String ":" (String " " (rstrip v)).
Proof.
  intros Hv. apply strip_not_empty in Hv.
  change (": " +:+ v) with (String ":" (String " " v)).
  rewrite rstrip_app_not_empty;
    rewrite rstrip_cons_keep by reflexivity;
    rewrite rstrip_cons_not_empty by exact Hv;
    [reflexivity|discriminate].
Qed.

(** After the lines of an entry the pending key and value are those of the
    entry; what was pending before has been stored. *)
Lemma cfg_loop_entry (n : nat) (e : entry) (st st1 : cfg_state) :
  entry_ok n e = true → cfg_flush st = Return st1 →
  cfg_loop st (rstrip <$> entry_lines e)
  = Return {| result := entry_value e; key := Some (entry_key e);
              results := results st1 |}.
Proof.
  intros He Hflush. destruct e as [k v|k items]; simpl in He.
  - apply andb_true_iff in He as [Hk Hv].
    destruct (scalar_ok_inv v Hv) as [_ Hne].
    simpl. rewrite (scalar_line_rstrip k v Hne).
    assert (Ht : rstrip (String " " (rstrip v)) = String " " (rstrip v)).
    { rewrite rstrip_cons_not_empty; rewrite rstrip_idempotent;
        [reflexivity|now apply strip_not_empty]. }
    rewrite (cfg_line_key_line k _ st st1 Hk Ht Hflush). simpl.
    assert (Hstrip : strip (String " " (rstrip v)) = strip v).
    { unfold strip at 1. rewrite Ht. reflexivity. }
    rewrite Hstrip, (length_not_empty _ Hne). reflexivity.
  - apply andb_true_iff in He as [He Hitems].
    apply andb_true_iff in He as [Hk _].
    simpl.
    assert (Hline : rstrip (k +:+ ":") = k +:+ String ":" "").
    { now rewrite rstrip_app_not_empty. }
    rewrite Hline.
    rewrite (cfg_line_key_line k "" st st1 Hk eq_refl Hflush). simpl.
    apply (cfg_loop_items items Hitems).
Qed.

(** The value of a stored entry is not empty, so the next flush stores
    it. *)
Lemma cfg_flush_entry (n : nat) (e : entry) (k : string)
    (r : gmap string value) :
  entry_ok n e = true → entry_stored e = true →
  cfg_flush {| result := entry_value e; key := Some k; results := r |}
  = Return {| result := VStr ""; key := Some k;
              results := <[k := entry_value e]> r |}.
Proof.
  intros He Hstored. unfold cfg_flush.
  destruct e as [k' v|k' items]; simpl in *.
  - apply andb_true_iff in He as [_ Hv].
    destruct (scalar_ok_inv v Hv) as [_ Hne].
    now rewrite (length_not_empty _ Hne).
  - rewrite length_fmap. destruct items; [discriminate|reflexivity].
Qed.

(** A list key without continuation lines leaves an empty list pending,
    which the next flush passes over. *)
Lemma cfg_flush_entry_empty (e : entry) (k : option string)
    (r : gmap string value) :
  entry_stored e = false →
  cfg_flush {| result := entry_value e; key := k; results := r |}
  = Return {| result := entry_value e; key := k; results := r |}.
Proof.
  intros Hstored. destruct e as [k' v|k' [|item items]]; try discriminate.
  reflexivity.
Qed.

(** *** The parser on a whole file *)

Lemma cfg_loop_entries (n : nat) (es : list entry) :
  forallb (entry_ok n) es = true →
  ∀ st st1 : cfg_state,
    cfg_flush st = Return st1 →
    ∃ st2,
      cfg_loop st (rstrip <$> concat (entry_lines <$> es)) ≫= cfg_flush
      = Return st2
      ∧ results st2
        = config_of_entries (results st1) (List.filter entry_stored es).
Proof.
  induction es as [|e es IH]; intros Hes st st1 Hflush.
  - exists st1. simpl. split; [exact Hflush|reflexivity].
  - simpl in Hes. apply andb_true_iff in Hes as [He Hes].
    simpl. rewrite fmap_app, cfg_loop_app.
    rewrite (cfg_loop_entry n e st st1 He Hflush). simpl.
    destruct (entry_stored e) eqn:Hstored.
    + destruct (IH Hes _ _
                  (cfg_flush_entry n e (entry_key e) (results st1) He Hstored))
        as (st2 & Hloop & Hres).
      exists st2. split; [exact Hloop|exact Hres].
    + destruct (IH Hes _ _
                  (cfg_flush_entry_empty e (Some (entry_key e)) (results st1)
                     Hstored))
        as (st2 & Hloop & Hres).
      exists st2. split; [exact Hloop|exact Hres].
Qed.

Lemma entry_lines_ok (n : nat) (e : entry) :
  entry_ok n e = true →
  Forall (λ l, contains LF l = false ∧ startswith "#" l = false)
         (entry_lines e).
Proof.
  intros He. destruct e as [k v|k items]; simpl in He.
  - apply andb_true_iff in He as [Hk Hv].
    destruct (key_ok_inv k Hk) as (Hlf & _ & _).
    destruct (scalar_ok_inv v Hv) as [Hlfv _].
    constructor; [|constructor]. split.
    + rewrite contains_app, Hlf. simpl. exact Hlfv.
    + change (": " +:+ v) with (String ":" (String " " v)).
      now destruct (key_line_head k (String " " v) Hk) as (Hhash & _).
  - apply andb_true_iff in He as [He Hitems].
    apply andb_true_iff in He as [Hk _].
    destruct (key_ok_inv k Hk) as (Hlf & _ & _).
    constructor.
    + split.
      * rewrite contains_app, Hlf. reflexivity.
      * now destruct (key_line_head k "" Hk) as (Hhash & _).
    + apply Forall_forall. intros c Hc.
      rewrite forallb_forall in Hitems.
      apply list_elem_of_In in Hc.
      destruct (item_ok_inv c (Hitems c Hc)) as (? & ? & _). now split.
Qed.

(** A written file parses to the dictionary of its stored entries. *)
Lemma cfg_results_write_config (n : nat) (fs : files) (filename : string)
    (es : list entry) :
  fs !! filename = Some (write_config es) →
  forallb (entry_ok n) es = true →
  cfg_results fs filename
  = Return (config_of_entries ∅ (List.filter entry_stored es)).
Proof.
  intros Hfile Hes. unfold cfg_results.
  rewrite (get_useful_lines_unlines fs filename
             (concat (entry_lines <$> es)) Hfile).
  - simpl.
    destruct (cfg_loop_entries n es Hes cfg_init cfg_init eq_refl)
      as (st2 & Hloop & Hres).
    change (cfg_loop cfg_init (rstrip <$> concat (entry_lines <$> es))
              ≫= (λ st, cfg_flush st ≫= λ st', Return (results st'))
            = Return (config_of_entries ∅ (List.filter entry_stored es))).
    destruct (cfg_loop cfg_init _) as [st| |]; simpl in *;
      try discriminate Hloop.
    rewrite Hloop. simpl. now rewrite Hres.
  - apply Forall_concat, Forall_fmap, Forall_forall. intros e He.
    rewrite forallb_forall in Hes. apply list_elem_of_In in He.
    apply (entry_lines_ok n e (Hes e He)).
Qed.

Lemma config_of_entries_other (es : list entry) (m : gmap string value)
    (k : string) :
  k ∉ entry_key <$> es → config_of_entries m es !! k = m !! k.
Proof.
  revert m. induction es as [|e es IH]; intros m Hk; [reflexivity|].
  simpl in Hk. apply not_elem_of_cons in Hk as [Hne Hk].
  simpl. unfold config_of_entries in IH. rewrite (IH _ Hk).
  apply lookup_insert_ne. congruence.
Qed.

Lemma stored_key_not_elem_of (es : list entry) (k : string) :
  k ∉ entry_key <$> es → k ∉ entry_key <$> List.filter entry_stored es.
Proof.
  induction es as [|e es IH]; simpl; [tauto|].
  intros Hk. apply not_elem_of_cons in Hk as [Hne Hk].
  destruct (entry_stored e); simpl; [|now apply IH].
  apply not_elem_of_cons. split; [exact Hne|now apply IH].
Qed.

(** Under distinct keys, the dictionary of the stored entries holds every
    stored entry under its key, and leaves the key of an entry that is not
    stored as it was. *)
Lemma config_of_entries_lookup (es : list entry) (m : gmap string value)
    (e : entry) :
  NoDup (entry_key <$> es) → e ∈ es →
  config_of_entries m (List.filter entry_stored es) !! entry_key e
  = if entry_stored e then Some (entry_value e) else m !! entry_key e.
Proof.
  revert m. induction es as [|e' es IH]; intros m Hnodup He.
  - now apply elem_of_nil in He.
  - simpl in Hnodup. apply NoDup_cons in Hnodup as [Hfresh Hnodup].
    apply elem_of_cons in He as [->|He].
    + simpl. destruct (entry_stored e') eqn:Hstored.
      * simpl.
        fold (config_of_entries (<[entry_key e' := entry_value e']> m)
                (List.filter entry_stored es)).
        rewrite (config_of_entries_other _ _ _
                   (stored_key_not_elem_of es _ Hfresh)).
        apply lookup_insert_eq.
      * apply (config_of_entries_other _ _ _
                 (stored_key_not_elem_of es _ Hfresh)).
    + assert (Hne : entry_key e' ≠ entry_key e).
      { intros Heq. apply Hfresh. rewrite Heq.
        apply list_elem_of_fmap. eauto. }
      simpl. destruct (entry_stored e') eqn:Hstored.
      * simpl.
        fold (config_of_entries (<[entry_key e' := entry_value e']> m)
                (List.filter entry_stored es)).
        rewrite (IH _ Hnodup He).
        destruct (entry_stored e); [reflexivity|].
        now apply lookup_insert_ne.
      * apply (IH _ Hnodup He).
Qed.

(** C6, amended: a file written from entries of distinct keys reads back
    entry by entry.  The entries are well formed in this sense: a key has
    no colon and no newline and starts neither with white space nor with
    [#]; a scalar is written [key: value] on one line, the value not blank;
    a list is written [key:] followed by its N continuation lines, N being
    0 or more, each one line that does not start with [#] and that has no
    colon or starts with a space.  A scalar gives the value stripped of
    surrounding white space.  A list key with one continuation line at
    least gives N members, in order, each the line stripped of surrounding
    white space and otherwise as written.  A list key without continuation
    lines is not stored: asking for it is the missing-key case. *)
Theorem config_round_trip (fs : files) (filename : string)
    (es : list entry) :
  fs !! filename = Some (write_config es) →
  forallb (entry_ok 0) es = true →
  NoDup (entry_key <$> es) →
  (∀ k v suppress, Scalar k v ∈ es →
     get_config_value fs k (Some filename) suppress = Return (VStr (strip v)))
  ∧ (∀ k items suppress, Block k items ∈ es → items ≠ [] →
       ∃ members,
         get_config_value fs k (Some filename) suppress
         = Return (VList members)
         ∧ List.length members = List.length items
         ∧ members = strip <$> items)
  ∧ (∀ k, Block k [] ∈ es →
       get_config_value fs k (Some filename) false = py_exit None
       ∧ get_config_value fs k (Some filename) true = Return (VInt 0)).
Proof.
  intros Hfile Hes Hnodup.
  pose proof (cfg_results_write_config 0 fs filename es Hfile Hes) as Hparse.
  split; [|split].
  - intros k v suppress He.
    apply (get_config_value_found fs k (Some filename) _ _ suppress Hparse).
    apply (config_of_entries_lookup es ∅ (Scalar k v) Hnodup He).
  - intros k items suppress He Hitems. exists (strip <$> items).
    split; [|split; [apply length_fmap|reflexivity]].
    apply (get_config_value_found fs k (Some filename) _ _ suppress Hparse).
    rewrite (config_of_entries_lookup es ∅ (Block k items) Hnodup He).
    destruct items; [contradiction|reflexivity].
  - intros k He.
    pose proof (config_of_entries_lookup es ∅ (Block k []) Hnodup He)
      as Habsent.
    simpl in Habsent. rewrite lookup_empty in Habsent.
    unfold get_config_value. simpl. simpl in Hparse. rewrite Hparse. simpl.
    rewrite Habsent. split; reflexivity.
Qed.

Lemma config_round_trip_witness :
  let es := [Block "EMPTY" [];
             Scalar "bucket" "my-bucket ";
             Block "LICENSED_SERVICES" ["- foo"; "  - bar: baz"]] in
  let fs : files := {[ "c.cfg" := write_config es ]} in
  fs !! "c.cfg" = Some (write_config es)
  ∧ forallb (entry_ok 0) es = true
  ∧ NoDup (entry_key <$> es)
  ∧ get_config_value fs "bucket" (Some "c.cfg") false
    = Return (VStr "my-bucket")
  ∧ get_config_value fs "LICENSED_SERVICES" (Some "c.cfg") false
    = Return (VList ["- foo"; "- bar: baz"])
  ∧ get_config_value fs "EMPTY" (Some "c.cfg") false = py_exit None
  ∧ get_config_value fs "EMPTY" (Some "c.cfg") true = Return (VInt 0).
Proof.
  intros es fs.
  assert (Hfile : fs !! "c.cfg" = Some (write_config es))
    by (vm_compute; reflexivity).
  assert (Hes : forallb (entry_ok 0) es = true) by reflexivity.
  assert (Hnodup : NoDup (entry_key <$> es)).
  { repeat (apply NoDup_cons; split);
      [rewrite !elem_of_cons, elem_of_nil; intuition discriminate
      |rewrite !elem_of_cons, elem_of_nil; intuition discriminate
      |apply not_elem_of_nil|apply NoDup_nil_2]. }
  destruct (config_round_trip fs "c.cfg" es Hfile Hes Hnodup)
    as (Hscalar & Hblock & Hempty).
  split; [exact Hfile|]. split; [exact Hes|]. split; [exact Hnodup|].
  split; [|split].
  - apply (Hscalar "bucket" "my-bucket " false).
    apply list_elem_of_further, list_elem_of_here.
  - destruct (Hblock "LICENSED_SERVICES" ["- foo"; "  - bar: baz"] false)
      as (l & Hl & _ & ->).
    + do 2 apply list_elem_of_further. apply list_elem_of_here.
    + discriminate.
    + exact Hl.
  - apply (Hempty "EMPTY"). apply list_elem_of_here.
Defined.

(** C6 as it is stated, for every N, fails at N = 0: a list key without
    continuation lines is not stored, and asking for it ends the process. *)
Lemma config_round_trip_fails_without_items :
  ¬ (∀ (fs : files) (filename : string) (es : list entry) (suppress : bool),
       fs !! filename = Some (write_config es) →
       forallb (entry_ok 0) es = true →
       NoDup (entry_key <$> es) →
       ∀ k items, Block k items ∈ es →
         ∃ members,
           get_config_value fs k (Some filename) suppress
           = Return (VList members)
           ∧ List.length members = List.length items).
Proof.
  intros Hclaim.
  destruct (Hclaim {[ "c.cfg" := write_config [Block "K" []] ]} "c.cfg"
              [Block "K" []] false)
    with (k := "K") (items := @nil string) as (members & Hget & _).
  - vm_compute; reflexivity.
  - reflexivity.
  - apply NoDup_singleton.
  - apply list_elem_of_here.
  - vm_compute in Hget. discriminate Hget.
Qed.

(** The parser takes for a key line every line with a colon that does not
    start with a space: a continuation line indented with a TAB and holding
    a colon starts a new key, and the list key above it is lost. *)
Lemma tab_indented_colon_line_starts_a_key :
  let fs : files :=
    {[ "c.cfg" := unlines ["K:"; String (ascii_of_nat 9) "- a:b"] ]} in
  get_config_value fs "K" (Some "c.cfg") false = Exit 0
  ∧ get_config_value fs "- a" (Some "c.cfg") false = Return (VStr "b").
Proof. split; vm_compute; reflexivity. Qed.

(** *** Comments *)

Lemma filter_comments_LF (ls : list string) :
  List.filter (λ line, negb (startswith "#" line))
              ((λ l, l +:+ String LF "") <$> ls)
  = (λ l, l +:+ String LF "")
      <$> List.filter (λ l, negb (startswith "#" l)) ls.
Proof.
  induction ls as [|l ls IH]; [reflexivity|].
  simpl. rewrite startswith_app_LF by reflexivity.
  destruct (startswith "#" l); simpl; [exact IH|f_equal; exact IH].
Qed.

Lemma filter_idempotent {A} (f : A → bool) (l : list A) :
  List.filter f (List.filter f l) = List.filter f l.
Proof.
  induction l as [|x l IH]; [reflexivity|].
  simpl. destruct (f x) eqn:Hx; simpl; [rewrite Hx; f_equal|]; exact IH.
Qed.

Lemma Forall_filter_bool {A} (P : A → Prop) (f : A → bool) (l : list A) :
  Forall P l → Forall P (List.filter f l).
Proof.
  induction 1 as [|x l Hx _ IH]; simpl; [constructor|].
  destruct (f x); [constructor; assumption|assumption].
Qed.

(** Lines that start with [#] are ignored: a file and the same file without
    its comment lines give the same answers. *)
Lemma get_config_value_ignores_comments (fs fs' : files)
    (filename config_key : string) (ls : list string) (suppress : bool) :
  Forall (λ l, contains LF l = false) ls →
  fs !! filename = Some (unlines ls) →
  fs' !! filename
    = Some (unlines (List.filter (λ l, negb (startswith "#" l)) ls)) →
  get_config_value fs config_key (Some filename) suppress
  = get_config_value fs' config_key (Some filename) suppress.
Proof.
  intros Hls Hfile Hfile'. unfold get_config_value, cfg_results. simpl.
  rewrite (get_useful_lines_keeps_blank_lines _ _ _ Hfile).
  rewrite (get_useful_lines_keeps_blank_lines _ _ _ Hfile').
  rewrite !readlines_unlines by (try apply Forall_filter_bool; exact Hls).
  rewrite !filter_comments_LF, filter_idempotent. reflexivity.
Qed.

(** The round trip holds as well for a file that carries comment lines
    between the lines of its entries. *)
Lemma config_round_trip_with_comments (fs : files) (filename : string)
    (ls : list string) (es : list entry) (suppress : bool) :
  fs !! filename = Some (unlines ls) →
  Forall (λ l, contains LF l = false) ls →
  List.filter (λ l, negb (startswith "#" l)) ls = concat (entry_lines <$> es) →
  forallb (entry_ok 0) es = true →
  NoDup (entry_key <$> es) →
  ∀ e, e ∈ es → entry_stored e = true →
    get_config_value fs (entry_key e) (Some filename) suppress
    = Return (entry_value e).
Proof.
  intros Hfile Hls Hlines Hes Hnodup e He Hstored.
  rewrite (get_config_value_ignores_comments
             fs {[ filename := write_config es ]} filename (entry_key e) ls
             suppress Hls Hfile)
    by (rewrite lookup_singleton_eq, Hlines; reflexivity).
  apply (get_config_value_found _ _ (Some filename)
           (config_of_entries ∅ (List.filter entry_stored es))).
  - apply (cfg_results_write_config 0);
      [apply lookup_singleton_eq|exact Hes].
  - rewrite (config_of_entries_lookup es ∅ e Hnodup He). now rewrite Hstored.
Qed.

(** * Further properties *)

(** ** Days of a month *)

(** X1: over a month string that converts to an integer, [days_in_month]
    ends the process exactly when the month is outside 1..12; inside, it
    returns 28 for February, 30 for April, June, September and November,
    and 31 otherwise. *)
Theorem days_in_month_cases (int_of_str : string → option Z)
    (month_string : string) (month : Z) :
  int_of_str month_string = Some month →
  (month < 1 ∨ 12 < month →
   days_in_month int_of_str month_string = Exit 0)
  ∧ (1 ≤ month ≤ 12 →
     ∃ days, days_in_month int_of_str month_string = Return days
             ∧ (month = 2 → days = 28)
             ∧ (month = 4 ∨ month = 6 ∨ month = 9 ∨ month = 11 → days = 30)
             ∧ (month ≠ 2 ∧ month ≠ 4 ∧ month ≠ 6 ∧ month ≠ 9 ∧ month ≠ 11 →
                days = 31)).
Proof.
  intros Hint. unfold days_in_month, py_int. rewrite Hint. simpl.
  split.
  - intros Hout.
    destruct (Z.eqb_spec month 4), (Z.eqb_spec month 6),
      (Z.eqb_spec month 9), (Z.eqb_spec month 11); simpl; try lia.
    destruct (Z.eqb_spec month 2); [lia|].
    destruct (Z.ltb_spec month 1), (Z.gtb_spec month 12); simpl;
      reflexivity || lia.
  - intros Hin.
    destruct (Z.eqb_spec month 4), (Z.eqb_spec month 6),
      (Z.eqb_spec month 9), (Z.eqb_spec month 11); simpl;
      try (eexists; split; [reflexivity|]; repeat split; intros; lia).
    destruct (Z.eqb_spec month 2);
      [eexists; split; [reflexivity|]; repeat split; intros; lia|].
    destruct (Z.ltb_spec month 1), (Z.gtb_spec month 12); simpl; try lia.
    eexists; split; [reflexivity|]; repeat split; intros; lia.
Qed.

Lemma days_in_month_cases_witness :
  (λ s : string, if String.eqb s "2" then Some 2 else None) "2" = Some 2
  ∧ days_in_month (λ s, if String.eqb s "2" then Some 2 else None) "2"
    = Return 28.
Proof.
  split; [reflexivity|].
  destruct (days_in_month_cases
              (λ s, if String.eqb s "2" then Some 2 else None) "2" 2 eq_refl)
    as [_ Hin].
  destruct (Hin ltac:(lia)) as (days & Hdays & Hfeb & _).
  rewrite Hdays. f_equal. apply Hfeb. reflexivity.
Defined.

(** ** Searching a line *)

(** X2: [find_line] returns the first line that contains the text, and the
    empty string when no line does. *)
Theorem find_line_first_match (search_line : string) :
  (∀ lines,
     Forall (λ line, is_substring search_line line = false) lines →
     find_line search_line lines = "")
  ∧ (∀ before line after,
       Forall (λ line, is_substring search_line line = false) before →
       is_substring search_line line = true →
       find_line search_line (before ++ line :: after)%list = line).
Proof.
  split.
  - induction 1 as [|l lines Hl _ IH]; simpl; [reflexivity|].
    now rewrite Hl.
  - intros before line after Hbefore Hline.
    induction Hbefore as [|l before Hl _ IH]; simpl.
    + now rewrite Hline.
    + now rewrite Hl.
Qed.

Lemma find_line_first_match_witness :
  Forall (λ line, is_substring "cost" line = false) ["name x"; "id 7"]
  ∧ is_substring "cost" "total cost 42" = true
  ∧ find_line "cost" (["name x"; "id 7"] ++ "total cost 42" :: ["cost 1"])%list
    = "total cost 42".
Proof.
  assert (Hbefore : Forall (λ line, is_substring "cost" line = false)
                           ["name x"; "id 7"])
    by (repeat constructor).
  split; [exact Hbefore|]. split; [reflexivity|].
  destruct (find_line_first_match "cost") as [_ Hfirst].
  apply (Hfirst ["name x"; "id 7"] "total cost 42" ["cost 1"] Hbefore).
  reflexivity.
Defined.

(** ** Words of a line *)

Lemma split_not_nil (sep : ascii) (s : string) : split sep s ≠ [].
Proof.
  induction s as [|c s IH]; simpl; [discriminate|].
  destruct (Ascii.eqb c sep); [discriminate|].
  destruct (split sep s); [contradiction|discriminate].
Qed.

Lemma py_index_in_range {A} (l : list A) (i : Z) :
  - Z.of_nat (List.length l) ≤ i < Z.of_nat (List.length l) →
  ∃ x, py_index l i = Return x.
Proof.
  intros Hi. destruct (Z.ltb_spec i 0) as [Hneg|Hpos].
  - destruct (lookup_lt_is_Some_2 l (Z.to_nat (i + Z.of_nat (List.length l))))
      as [x Hx]; [lia|].
    exists x. apply py_index_negative; [lia|lia|exact Hx].
  - destruct (lookup_lt_is_Some_2 l (Z.to_nat i)) as [x Hx]; [lia|].
    exists x. apply py_index_nonneg; [lia|exact Hx].
Qed.

(** The loop of [get_data_from_file] never raises [IndexError]. *)
Lemma extract_data_never_IndexError (int_of_str : string → option Z)
    (instructions lines results : list string) :
  extract_data int_of_str instructions lines results ≠ Raise IndexError.
Proof.
  revert results.
  induction instructions as [|instruction rest IH]; intros results;
    simpl; [discriminate|].
  destruct (split "," instruction) as [|search_text [|word [|? ?]]];
    try discriminate.
  destruct (String.eqb (find_line search_text lines) ""); [discriminate|].
  set (words := split " " (find_line search_text lines)).
  assert (Hwords : (0 < List.length words)%nat).
  { pose proof (split_not_nil " " (find_line search_text lines)) as Hne.
    fold words in Hne. destruct words; [contradiction|simpl; lia]. }
  destruct (String.eqb word "last").
  - destruct (py_index_in_range words (-1)) as [x Hx]; [lia|].
    rewrite Hx. simpl. apply IH.
  - unfold py_int. destruct (int_of_str word) as [n|]; [|discriminate].
    simpl.
    destruct (Z.ltb_spec n 1); [discriminate|].
    destruct (Z.gtb_spec n (Z.of_nat (List.length words))); [discriminate|].
    simpl. destruct (py_index_in_range words (n - 1)) as [x Hx]; [lia|].
    rewrite Hx. simpl. apply IH.
Qed.

(** The word number of an instruction outside the line ends the process
    with status 1. *)
Lemma extract_data_word_out_of_range (int_of_str : string → option Z)
    (search_text word : string) (n : Z) (rest lines results : list string) :
  contains "," search_text = false → contains "," word = false →
  find_line search_text lines ≠ "" → word ≠ "last" →
  int_of_str word = Some n →
  n < 1 ∨ Z.of_nat (List.length (split " " (find_line search_text lines))) < n →
  extract_data int_of_str ((search_text +:+ String "," word) :: rest)
               lines results
  = Exit 1.
Proof.
  intros Hs Hw Hfound Hlast Hint Hout. simpl.
  rewrite (split_at_sep "," search_text word Hs), (split_no_sep "," word Hw).
  apply String.eqb_neq in Hfound, Hlast. rewrite Hfound, Hlast.
  unfold py_int. rewrite Hint. simpl.
  destruct (Z.ltb_spec n 1); [reflexivity|].
  destruct (Z.gtb_spec n
              (Z.of_nat (List.length
                           (split " " (find_line search_text lines)))));
    [reflexivity|lia].
Qed.

(** The word number of an instruction inside the line takes that word,
    counted from 1, and the loop goes on. *)
Lemma extract_data_word_in_range (int_of_str : string → option Z)
    (search_text word : string) (n : Z) (rest lines results : list string) :
  contains "," search_text = false → contains "," word = false →
  find_line search_text lines ≠ "" → word ≠ "last" →
  int_of_str word = Some n →
  1 ≤ n ≤ Z.of_nat (List.length (split " " (find_line search_text lines))) →
  ∃ found,
    split " " (find_line search_text lines) !! Z.to_nat (n - 1) = Some found
    ∧ extract_data int_of_str ((search_text +:+ String "," word) :: rest)
                   lines results
      = extract_data int_of_str rest lines (results ++ [found])%list.
Proof.
  intros Hs Hw Hfound Hlast Hint Hin.
  destruct (lookup_lt_is_Some_2
              (split " " (find_line search_text lines)) (Z.to_nat (n - 1)))
    as [found Hword]; [lia|].
  exists found. split; [exact Hword|]. simpl.
  rewrite (split_at_sep "," search_text word Hs), (split_no_sep "," word Hw).
  apply String.eqb_neq in Hfound, Hlast. rewrite Hfound, Hlast.
  unfold py_int. rewrite Hint. simpl.
  destruct (Z.ltb_spec n 1); [lia|].
  destruct (Z.gtb_spec n
              (Z.of_nat (List.length
                           (split " " (find_line search_text lines)))));
    [lia|].
  simpl. rewrite (py_index_nonneg _ _ found) by (lia || exact Hword).
  reflexivity.
Qed.

(** X3: in the loop of [get_data_from_file], the word number of an
    instruction is checked against both ends of the line that was found:
    below 1 or above the number of words the process ends with status 1;
    from 1 to the number of words the word of that number, counted from 1,
    is taken and the loop goes on.  Whatever the instructions, the loop
    never raises [IndexError]. *)
Theorem extract_data_word_bounds (int_of_str : string → option Z)
    (search_text word : string) (n : Z) (rest lines results : list string) :
  contains "," search_text = false → contains "," word = false →
  find_line search_text lines ≠ "" → word ≠ "last" →
  int_of_str word = Some n →
  (n < 1 ∨ Z.of_nat (List.length (split " " (find_line search_text lines))) < n →
   extract_data int_of_str ((search_text +:+ String "," word) :: rest)
                lines results
   = Exit 1)
  ∧ (1 ≤ n ≤ Z.of_nat (List.length (split " " (find_line search_text lines))) →
     ∃ found,
       split " " (find_line search_text lines) !! Z.to_nat (n - 1) = Some found
       ∧ extract_data int_of_str ((search_text +:+ String "," word) :: rest)
                      lines results
         = extract_data int_of_str rest lines (results ++ [found])%list)
  ∧ (∀ instructions,
       extract_data int_of_str instructions lines results ≠ Raise IndexError).
Proof.
  intros Hs Hw Hfound Hlast Hint. split; [|split].
  - now apply extract_data_word_out_of_range.
  - now apply extract_data_word_in_range.
  - intros instructions. apply extract_data_never_IndexError.
Qed.

Lemma extract_data_word_bounds_witness :
  let int_of_str (s : string) : option Z :=
    if String.eqb s "0" then Some 0
    else if String.eqb s "3" then Some 3 else None in
  contains "," "cost" = false ∧ contains "," "0" = false
  ∧ find_line "cost" ["total cost 42"] ≠ ""
  ∧ "0" ≠ "last" ∧ int_of_str "0" = Some 0
  ∧ extract_data int_of_str ["cost,0"] ["total cost 42"] [] = Exit 1
  ∧ extract_data int_of_str ["cost,3"] ["total cost 42"] [] = Return ["42"].
Proof.
  intros int_of_str.
  split; [reflexivity|]. split; [reflexivity|]. split; [discriminate|].
  split; [discriminate|]. split; [reflexivity|]. split.
  - destruct (extract_data_word_bounds int_of_str "cost" "0" 0 []
                ["total cost 42"] [] eq_refl eq_refl
                ltac:(discriminate) ltac:(discriminate) eq_refl)
      as (Hout & _ & _).
    apply Hout. left. lia.
  - destruct (extract_data_word_bounds int_of_str "cost" "3" 3 []
                ["total cost 42"] [] eq_refl eq_refl
                ltac:(discriminate) ltac:(discriminate) eq_refl)
      as (_ & Hin & _).
    destruct (Hin ltac:(vm_compute; split; discriminate))
      as (found & Hword & Hgo).
    vm_compute in Hword. inversion Hword; subst found.
    exact Hgo.
Defined.

(** ** Sources of the credentials *)

(** X4: when [VCAP_SERVICES] is set, the credentials come from it alone:
    the constructor gives the same outcome whatever the local files hold,
    [aws.cfg] included, and leaves the world as it is. *)
Theorem S3Initializer_prefers_vcap {R} `{!S3Api R}
    (self : attrs) (s3_only : value) (env : vcap_services) (w w' : world R) :
  w_env w = Some env → w_env w' = Some env →
  ∃ o, S3Initializer___init__ self s3_only w = (o, w)
       ∧ S3Initializer___init__ self s3_only w' = (o, w').
Proof.
  intros Henv Henv'. unfold S3Initializer___init__. rewrite Henv, Henv'.
  unfold mbind, M_bind, get_service_from_vcap_services, lift.
  rewrite Henv, Henv'.
  destruct (env !! "aws-s3") as [bindings|]; [|eexists; split; reflexivity].
  destruct (py_index bindings 0) as [b| |]; simpl;
    [|eexists; split; reflexivity..].
  destruct (dict_get (credentials b) "access_key_id"); simpl;
    [|eexists; split; reflexivity..].
  destruct (dict_get (credentials b) "bucket"); simpl;
    [|eexists; split; reflexivity..].
  destruct (dict_get (credentials b) "secret_access_key"); simpl;
    [|eexists; split; reflexivity..].
  destruct (credentials b !! "kms_key_arn"); simpl;
    [|eexists; split; reflexivity].
  destruct (py_index (split "/" _) 1); simpl; eexists; split; reflexivity.
Qed.

Lemma S3Initializer_prefers_vcap_witness :
  ∃ o,
    S3Initializer___init__ ∅ VNone (local_world ∅ (Some vcap_with_kms))
    = (o, local_world ∅ (Some vcap_with_kms))
    ∧ S3Initializer___init__ ∅ VNone
        (local_world aws_cfg_with_kms (Some vcap_with_kms))
      = (o, local_world aws_cfg_with_kms (Some vcap_with_kms)).
Proof.
  exact (S3Initializer_prefers_vcap ∅ VNone vcap_with_kms
           (local_world ∅ (Some vcap_with_kms))
           (local_world aws_cfg_with_kms (Some vcap_with_kms))
           eq_refl eq_refl).
Defined.

Ltac lookup_inserted :=
  repeat first [rewrite lookup_insert_eq
               |rewrite lookup_insert_ne by discriminate];
  eauto.

(** What the constructor returns: an object with the four credential
    attributes when a source was there, the object it was given with
    [s3_only] set when none was. *)
Lemma S3Initializer_result {R} `{!S3Api R}
    (self0 self : attrs) (s3_only : value) (w w' : world R) :
  S3Initializer___init__ self0 s3_only w = (Return self, w') →
  w' = w
  ∧ ((is_Some (w_env w) ∨ is_Some (w_fs w !! "aws.cfg"))
     ∧ is_Some (self !! "bucket") ∧ is_Some (self !! "access_key_id")
     ∧ is_Some (self !! "secret_access_key") ∧ is_Some (self !! "kms_key_id")
     ∨ w_env w = None ∧ w_fs w !! "aws.cfg" = None
       ∧ self = <["s3_only" := s3_only]> self0).
Proof.
  intros Hinit. unfold S3Initializer___init__ in Hinit.
  destruct (w_env w) eqn:Henv.
  - unfold mbind, M_bind, get_service_from_vcap_services, lift in Hinit.
    rewrite Henv in Hinit.
    repeat step_in Hinit; inversion Hinit; subst;
      (split; [reflexivity|]); left;
      (split; [left; eauto|]); repeat split; lookup_inserted.
  - unfold mbind, M_bind, os_path_exists, config_value, lift in Hinit.
    simpl in Hinit.
    destruct (bool_decide (is_Some (w_fs w !! "aws.cfg"))) eqn:Hcfg.
    + apply bool_decide_eq_true_1 in Hcfg.
      repeat step_in Hinit; inversion Hinit; subst.
      split; [reflexivity|]. left.
      split; [right; exact Hcfg|]. repeat split; lookup_inserted.
    + apply bool_decide_eq_false_1 in Hcfg.
      repeat step_in Hinit; inversion Hinit; subst.
      split; [reflexivity|]. right. split; [reflexivity|].
      split; [|reflexivity].
      destruct (w_fs w' !! "aws.cfg") eqn:Hfile; [|reflexivity].
      exfalso. apply Hcfg. eauto.
Qed.

(** X5: an object the constructor returns has a [bucket] attribute exactly
    when a credential source was there; it then has the key, the secret and
    the key id as well, so that a client can be made.  The constructor
    changes nothing in the world. *)
Theorem S3Initializer_mode {R} `{!S3Api R}
    (self0 self : attrs) (s3_only : value) (w w' : world R) :
  self0 !! "bucket" = None →
  S3Initializer___init__ self0 s3_only w = (Return self, w') →
  w' = w
  ∧ (hasattr self "bucket" = true
     ↔ is_Some (w_env w) ∨ is_Some (w_fs w !! "aws.cfg"))
  ∧ (hasattr self "bucket" = true →
     is_Some (self !! "kms_key_id") ∧ ∃ client, get_s3_client self = Return client).
Proof.
  intros Hfresh Hinit.
  destruct (S3Initializer_result self0 self s3_only w w' Hinit)
    as [-> [(Hsource & Hb & [a Ha] & [c Hc] & Hk)|(Henv & Hcfg & ->)]].
  - split; [reflexivity|]. unfold hasattr. split.
    + split; [intros _; exact Hsource|].
      intros _. now apply bool_decide_eq_true_2.
    + intros _. split; [exact Hk|].
      unfold get_s3_client, getattr. rewrite Ha, Hc. simpl. eauto.
  - split; [reflexivity|]. unfold hasattr.
    rewrite lookup_insert_ne by discriminate. rewrite Hfresh, Henv, Hcfg.
    split; [split|].
    + intros Hb. apply bool_decide_eq_true_1 in Hb.
      destruct Hb as [? Hb]. discriminate Hb.
    + intros [[? Hv]|[? Hv]]; discriminate Hv.
    + intros Hb. apply bool_decide_eq_true_1 in Hb.
      destruct Hb as [? Hb]. discriminate Hb.
Qed.

Lemma S3Initializer_mode_witness :
  (∅ : attrs) !! "bucket" = None
  ∧ ∃ self,
      S3Initializer___init__ ∅ VNone (local_world aws_cfg_with_kms None)
      = (Return self, local_world aws_cfg_with_kms None)
      ∧ hasattr self "bucket" = true
      ∧ ∃ client, get_s3_client self = Return client.
Proof.
  split; [reflexivity|].
  destruct (S3Initializer___init__ ∅ VNone (local_world aws_cfg_with_kms None))
    as [o w'] eqn:Hinit.
  assert (Ho : ∃ self, o = Return self).
  { apply (f_equal fst) in Hinit. simpl in Hinit. rewrite <- Hinit.
    vm_compute. eexists. reflexivity. }
  destruct Ho as [self ->].
  destruct (S3Initializer_mode ∅ self VNone _ w' (lookup_empty "bucket") Hinit)
    as (-> & Hmode & Hclient).
  exists self. split; [reflexivity|].
  assert (Hb : hasattr self "bucket" = true).
  { apply Hmode. right. vm_compute. eauto. }
  split; [exact Hb|]. apply (Hclient Hb).
Defined.

(** With neither source and remote access required, the constructor ends
    the process. *)
Lemma S3Initializer_exits_without_source {R} `{!S3Api R}
    (self : attrs) (s3_only : value) (w : world R) :
  w_env w = None → w_fs w !! "aws.cfg" = None → truthy s3_only = true →
  S3Initializer___init__ self s3_only w = (Exit 1, w).
Proof.
  intros Henv Hcfg Hopt. unfold S3Initializer___init__.
  rewrite Henv. unfold mbind, M_bind, os_path_exists. rewrite Hcfg. simpl.
  rewrite Hopt. reflexivity.
Qed.

(** X6: with neither source, every class built on the constructor ends the
    process with status 1 when it is told that remote access is required,
    before any file is read or written. *)
Theorem S3Initializer_required_without_source {R} `{!S3Api R}
    (filename : string) (s3_only : value) (w : world R) :
  w_env w = None → w_fs w !! "aws.cfg" = None → truthy s3_only = true →
  FileManager___init__ s3_only w = (Exit 1, w)
  ∧ S3Writer___init__ filename s3_only w = (Exit 1, w)
  ∧ S3Initializer___init__ ∅ s3_only w = (Exit 1, w).
Proof.
  intros Henv Hcfg Hopt.
  repeat split; now apply S3Initializer_exits_without_source.
Qed.

Lemma S3Initializer_required_without_source_witness :
  w_env (local_world ∅ None) = None
  ∧ w_fs (local_world ∅ None) !! "aws.cfg" = None
  ∧ truthy (VBool true) = true
  ∧ S3Writer___init__ "out.txt" (VBool true) (local_world ∅ None)
    = (Exit 1, local_world ∅ None).
Proof.
  split; [reflexivity|]. split; [reflexivity|]. split; [reflexivity|].
  apply (S3Initializer_required_without_source "out.txt" (VBool true)
           (local_world ∅ None)); reflexivity.
Defined.

(** ** Bound services *)

(** X7: a service that [vcap_service_present] reports is one that
    [get_service_from_vcap_services] does not end the process on: it gives
    the first binding of the service, or raises [IndexError] when the
    service has none.  A service not reported ends the process with
    status 0 when [VCAP_SERVICES] is set, and raises [KeyError] when it is
    not. *)
Theorem vcap_service_present_get_service {R} `{!S3Api R}
    (service_name : string) (w : world R) :
  (vcap_service_present (w_env w) service_name = true →
   ∃ env bindings,
     w_env w = Some env ∧ env !! service_name = Some bindings
     ∧ get_service_from_vcap_services service_name w
       = (from_option Return (Raise IndexError) (head bindings), w))
  ∧ (vcap_service_present (w_env w) service_name = false →
     get_service_from_vcap_services service_name w
     = (match w_env w with Some _ => Exit 0 | None => Raise KeyError end, w)).
Proof.
  unfold vcap_service_present, get_service_from_vcap_services.
  destruct (w_env w) as [env|]; split.
  - intros Hp. apply bool_decide_eq_true_1 in Hp as [bindings Hb].
    exists env, bindings. rewrite Hb.
    split; [reflexivity|]. split; [reflexivity|].
    destruct bindings; reflexivity.
  - intros Hp. apply bool_decide_eq_false_1 in Hp.
    destruct (env !! service_name) eqn:Hb; [|reflexivity].
    exfalso. apply Hp. eauto.
  - discriminate.
  - reflexivity.
Qed.

Lemma vcap_service_present_get_service_witness :
  vcap_service_present (Some vcap_with_kms) "p-identity" = false
  ∧ get_service_from_vcap_services "p-identity"
      (local_world ∅ (Some vcap_with_kms))
    = (Exit 0, local_world ∅ (Some vcap_with_kms)).
Proof.
  split; [reflexivity|].
  destruct (vcap_service_present_get_service "p-identity"
              (local_world ∅ (Some vcap_with_kms))) as [_ Habsent].
  apply Habsent. reflexivity.
Defined.

(** ** Licensed services *)

Lemma licensed_fold (service_name : string) (entries : list string) (b : bool) :
  foldl (λ (licensed : bool) entry,
           if startswith entry service_name then true else licensed)
        b entries
  = b || existsb (λ entry, startswith entry service_name) entries.
Proof.
  revert b. induction entries as [|e entries IH]; intros b; simpl.
  - now rewrite orb_false_r.
  - rewrite IH. destruct (startswith e service_name), b; reflexivity.
Qed.

(** X8: when [LICENSED_SERVICES] is a list, a service is licensed exactly
    when one member of the list is a prefix of its name; the members are
    compared as they were read, markers included. *)
Theorem licensed_service_list (fs : files) (service_name : string)
    (entries : list string) :
  get_config_value fs "LICENSED_SERVICES" None false = Return (VList entries) →
  ∃ licensed,
    licensed_service fs service_name = Return licensed
    ∧ (licensed = true
       ↔ ∃ entry, entry ∈ entries ∧ startswith entry service_name = true).
Proof.
  intros Hcfg. unfold licensed_service. rewrite Hcfg. simpl.
  eexists. split; [reflexivity|].
  rewrite licensed_fold. simpl. rewrite existsb_exists.
  split; intros (entry & Hin & Hpre); exists entry;
    (split; [now apply list_elem_of_In|exact Hpre]).
Qed.

Lemma licensed_service_list_witness :
  get_config_value
    {[ "PlatformChargeback.cfg" :=
         unlines ["LICENSED_SERVICES:"; "- foo"; "- bar"] ]}
    "LICENSED_SERVICES" None false
  = Return (VList ["- foo"; "- bar"])
  ∧ licensed_service
      {[ "PlatformChargeback.cfg" :=
           unlines ["LICENSED_SERVICES:"; "- foo"; "- bar"] ]}
      "foo-db"
    = Return false.
Proof.
  assert (Hcfg : get_config_value
                   {[ "PlatformChargeback.cfg" :=
                        unlines ["LICENSED_SERVICES:"; "- foo"; "- bar"] ]}
                   "LICENSED_SERVICES" None false
                 = Return (VList ["- foo"; "- bar"]))
    by (vm_compute; reflexivity).
  split; [exact Hcfg|].
  destruct (licensed_service_list _ "foo-db" _ Hcfg) as (b & Hb & Hiff).
  rewrite Hb. f_equal. destruct b; [|reflexivity].
  destruct (proj1 Hiff eq_refl) as (entry & Hin & Hpre).
  rewrite !elem_of_cons, elem_of_nil in Hin.
  destruct Hin as [->|[->|[]]]; discriminate Hpre.
Defined.

Lemma licensed_by_character (service_name s : string) :
  existsb (λ entry, startswith entry service_name) (characters s)
  = match service_name with
    | EmptyString => false
    | String c _ => contains c s
    end.
Proof.
  induction s as [|d s IH]; simpl.
  - now destruct service_name.
  - rewrite IH. destruct service_name as [|c rest]; [reflexivity|].
    rewrite startswith_cons. now destruct (Ascii.eqb d c).
Qed.

(** X9: when [LICENSED_SERVICES] is written as a scalar, the loop runs over
    its characters: a service is then licensed exactly when its name
    starts with one of the characters of the value. *)
Theorem licensed_service_scalar (fs : files) (service_name s : string) :
  get_config_value fs "LICENSED_SERVICES" None false = Return (VStr s) →
  ∃ licensed,
    licensed_service fs service_name = Return licensed
    ∧ (licensed = true
       ↔ ∃ c rest, service_name = String c rest ∧ contains c s = true).
Proof.
  intros Hcfg. unfold licensed_service. rewrite Hcfg. simpl.
  eexists. split; [reflexivity|].
  rewrite licensed_fold. simpl. rewrite licensed_by_character.
  destruct service_name as [|c rest].
  - split; [discriminate|]. intros (? & ? & Hname & _). discriminate Hname.
  - split; [eauto|]. intros (c' & rest' & Hname & Hc).
    now inversion Hname; subst.
Qed.

Lemma licensed_service_scalar_witness :
  get_config_value
    {[ "PlatformChargeback.cfg" := unlines ["LICENSED_SERVICES: redis"] ]}
    "LICENSED_SERVICES" None false
  = Return (VStr "redis")
  ∧ licensed_service
      {[ "PlatformChargeback.cfg" := unlines ["LICENSED_SERVICES: redis"] ]}
      "elastic"
    = Return true.
Proof.
  assert (Hcfg : get_config_value
                   {[ "PlatformChargeback.cfg" :=
                        unlines ["LICENSED_SERVICES: redis"] ]}
                   "LICENSED_SERVICES" None false
                 = Return (VStr "redis"))
    by (vm_compute; reflexivity).
  split; [exact Hcfg|].
  destruct (licensed_service_scalar _ "elastic" _ Hcfg) as (b & Hb & Hiff).
  rewrite Hb. f_equal. apply Hiff. exists "e"%char, "lastic".
  split; reflexivity.
Defined.

(** ** The read protocol *)

Section ReadProtocol.
Context {R : Type} `{!S3Api R} `{!S3Objects R}.

(** X10: without a [bucket] attribute, or with one when a local copy is
    there and remote access is not forced, [S3Reader.__enter__] opens the
    local file and nothing else: the world is left as it is, whatever the
    remote store would answer. *)
Theorem S3Reader_enter_local (self : attrs) (filename text : string)
    (s3_only : value) (w : world R) :
  self !! "filename" = Some (VStr filename) →
  w_fs w !! filename = Some text →
  hasattr self "bucket" = false
  ∨ self !! "s3_only" = Some s3_only ∧ truthy s3_only = false →
  S3Reader___enter__ self w
  = (Return (<["file" := VReader (readlines text)]> self,
             VReader (readlines text)),
     w).
Proof.
  intros Hname Hfile Hmode.
  unfold S3Reader___enter__, S3Reader_fetch, mbind, M_bind, lift, getattr,
    os_path_exists, open_r.
  rewrite Hname. simpl.
  destruct (hasattr self "bucket") eqn:Hb.
  - destruct Hmode as [Hno|[Hs3 Hfalsy]]; [discriminate|].
    rewrite bool_decide_eq_true_2 by eauto.
    rewrite Hs3. simpl. rewrite Hfalsy. simpl. rewrite Hfile. reflexivity.
  - simpl. rewrite Hfile. reflexivity.
Qed.

(** In local-only mode a file that is not there is a [FileNotFoundError]. *)
Lemma S3Reader_enter_local_missing (self : attrs) (filename : string)
    (w : world R) :
  self !! "filename" = Some (VStr filename) →
  w_fs w !! filename = None →
  hasattr self "bucket" = false →
  S3Reader___enter__ self w = (Raise FileNotFoundError, w).
Proof.
  intros Hname Hfile Hb.
  unfold S3Reader___enter__, S3Reader_fetch, mbind, M_bind, lift, getattr,
    open_r.
  rewrite Hname. simpl. rewrite Hb. simpl. rewrite Hfile. reflexivity.
Qed.

(** The remote part of [__enter__] when the store is asked: no local copy,
    or remote access forced. *)
Lemma S3Reader_fetch_forced (self : attrs) (filename : string)
    (client : s3_client) (bucket s3_only : value) (w : world R) :
  self !! "bucket" = Some bucket →
  get_s3_client self = Return client →
  w_fs w !! filename = None
  ∨ self !! "s3_only" = Some s3_only ∧ truthy s3_only = true →
  S3Reader_fetch self filename w
  = match s3_head_object client bucket filename (w_s3 w) with
    | Return HeadFound =>
        (_ ← download_file client bucket filename filename; mret true) w
    | Return (HeadClientError Code) =>
        if String.eqb Code "404" then
          match self !! "suppress_file_not_found" with
          | Some suppress =>
              if truthy suppress then (Return false, w) else (Exit 1, w)
          | None => (Raise AttributeError, w)
          end
        else (Raise ClientError, w)
    | Exit n => (Exit n, w)
    | Raise e => (Raise e, w)
    end.
Proof.
  intros Hb Hclient Hforced.
  unfold S3Reader_fetch, hasattr. rewrite Hb.
  rewrite bool_decide_eq_true_2 by eauto.
  unfold mbind at 1. unfold M_bind at 1. unfold os_path_exists at 1.
  assert (Hf : (if bool_decide (is_Some (w_fs w !! filename))
                then (s3_only ← lift (getattr self "s3_only");
                      mret (truthy s3_only)) : M R bool
                else mret true) w = (Return true, w)).
  { destruct Hforced as [Hnone|[Hs3 Htruthy]].
    - rewrite Hnone. rewrite bool_decide_eq_false_2; [reflexivity|].
      intros [? Hx]. discriminate Hx.
    - destruct (bool_decide (is_Some (w_fs w !! filename))); [|reflexivity].
      unfold mbind, M_bind, lift, getattr. rewrite Hs3. simpl.
      now rewrite Htruthy. }
  unfold mbind at 1. unfold M_bind at 1. rewrite Hf.
  unfold mbind at 1. unfold M_bind at 1. unfold lift at 1. rewrite Hclient.
  unfold mbind at 1. unfold M_bind at 1. unfold lift at 1, getattr at 1.
  rewrite Hb.
  unfold mbind at 1. unfold M_bind at 1. unfold head_object at 1.
  destruct (s3_head_object client bucket filename (w_s3 w))
    as [[|Code]| |]; try reflexivity.
  destruct (String.eqb Code "404"); [|reflexivity].
  unfold mbind, M_bind, lift, getattr.
  destruct (self !! "suppress_file_not_found") as [suppress|]; [|reflexivity].
  now destruct (truthy suppress).
Qed.

(** X11: when the store is asked and answers that the object is not there
    (code 404), [__enter__] hands [None] to the body if the caller
    suppresses the error and ends the process with status 1 if not; any
    other error code is raised again.  No local file is opened or changed,
    even one that is there. *)
Theorem S3Reader_enter_not_found (self : attrs) (filename Code : string)
    (client : s3_client) (bucket s3_only suppress : value) (w : world R) :
  self !! "filename" = Some (VStr filename) →
  self !! "bucket" = Some bucket →
  self !! "suppress_file_not_found" = Some suppress →
  get_s3_client self = Return client →
  w_fs w !! filename = None
  ∨ self !! "s3_only" = Some s3_only ∧ truthy s3_only = true →
  s3_head_object client bucket filename (w_s3 w)
  = Return (HeadClientError Code) →
  S3Reader___enter__ self w
  = (if String.eqb Code "404"
     then if truthy suppress then Return (self, VNone) else Exit 1
     else Raise ClientError,
     w).
Proof.
  intros Hname Hb Hsup Hclient Hforced Hhead.
  unfold S3Reader___enter__.
  unfold mbind at 1. unfold M_bind at 1. unfold lift at 1, getattr at 1.
  rewrite Hname. simpl.
  unfold mbind at 1. unfold M_bind at 1.
  rewrite (S3Reader_fetch_forced self filename client bucket s3_only w
             Hb Hclient Hforced).
  rewrite Hhead, Hsup.
  destruct (String.eqb Code "404"); [|reflexivity].
  now destruct (truthy suppress).
Qed.

(** X12: when the store is asked and has the object, the object is
    downloaded over the local name and the file then opened is the
    downloaded text, a local copy that was there being replaced. *)
Theorem S3Reader_enter_downloads (self : attrs) (filename text : string)
    (client : s3_client) (bucket s3_only : value) (w : world R) :
  self !! "filename" = Some (VStr filename) →
  self !! "bucket" = Some bucket →
  get_s3_client self = Return client →
  w_fs w !! filename = None
  ∨ self !! "s3_only" = Some s3_only ∧ truthy s3_only = true →
  s3_head_object client bucket filename (w_s3 w) = Return HeadFound →
  s3_download_file client bucket filename (w_s3 w) = Return text →
  S3Reader___enter__ self w
  = (Return (<["file" := VReader (readlines text)]> self,
             VReader (readlines text)),
     {| w_fs := <[filename := text]> (w_fs w); w_env := w_env w;
        w_s3 := w_s3 w;
        w_log := (w_log w ++ [EvDownload bucket filename filename text])%list |}).
Proof.
  intros Hname Hb Hclient Hforced Hhead Hget.
  unfold S3Reader___enter__.
  unfold mbind at 1. unfold M_bind at 1. unfold lift at 1, getattr at 1.
  rewrite Hname. simpl.
  unfold mbind at 1. unfold M_bind at 1.
  rewrite (S3Reader_fetch_forced self filename client bucket s3_only w
             Hb Hclient Hforced).
  rewrite Hhead.
  unfold mbind, M_bind, download_file, open_r, emit. rewrite Hget. simpl.
  rewrite lookup_insert_eq. reflexivity.
Qed.

(** X13: [get_data_from_file] asks for remote access; where no credential
    source is there, it ends the process with status 1 once the
    instructions have been read, even when the file is there locally. *)
Theorem get_data_from_file_needs_credentials
    (int_of_str : string → option Z) (filename config_key : string)
    (instructions : value) (w : world R) :
  get_config_value (w_fs w) config_key None false = Return instructions →
  w_env w = None → w_fs w !! "aws.cfg" = None →
  get_data_from_file int_of_str filename config_key w = (Exit 1, w).
Proof.
  intros Hcfg Henv Haws. unfold get_data_from_file.
  unfold mbind at 1. unfold M_bind at 1. rewrite Hcfg.
  unfold mbind at 1. unfold M_bind at 1.
  unfold with_S3Reader, S3Reader___init__.
  unfold mbind at 1. unfold M_bind at 1.
  now rewrite (S3Initializer_exits_without_source _ (VBool true) w
                 Henv Haws eq_refl).
Qed.

(** X14: [FileManager.delete] acts on the remote store only: it never
    changes a local file, and on an object without credentials it raises
    [AttributeError] and does nothing. *)
Theorem FileManager_delete_keeps_local_files (self : attrs)
    (filename : string) (w : world R) :
  (∀ o w', FileManager_delete self filename w = (o, w') →
           w_fs w' = w_fs w ∧ w_log w' = w_log w)
  ∧ (self !! "access_key_id" = None →
     FileManager_delete self filename w = (Raise AttributeError, w)).
Proof.
  unfold FileManager_delete, mbind, M_bind, lift, get_s3_client, getattr,
    delete_object, outcome_bind.
  split.
  - intros o w' Hdel.
    repeat (simpl in Hdel;
            match type of Hdel with
            | context [match ?x with _ => _ end] => destruct x eqn:?
            end);
      inversion Hdel; subst; split; reflexivity.
  - intros Hno. rewrite Hno. reflexivity.
Qed.

End ReadProtocol.

Lemma S3Reader_enter_local_witness :
  ({[ "filename" := VStr "r.txt" ]} : attrs) !! "filename" = Some (VStr "r.txt")
  ∧ w_fs (local_world {[ "r.txt" := "old" ]} None) !! "r.txt" = Some "old"
  ∧ hasattr ({[ "filename" := VStr "r.txt" ]} : attrs) "bucket" = false
  ∧ S3Reader___enter__ {[ "filename" := VStr "r.txt" ]}
      (local_world {[ "r.txt" := "old" ]} None)
    = (Return (<["file" := VReader (readlines "old")]>
                 {[ "filename" := VStr "r.txt" ]},
               VReader (readlines "old")),
       local_world {[ "r.txt" := "old" ]} None).
Proof.
  split; [reflexivity|]. split; [reflexivity|]. split; [reflexivity|].
  apply (S3Reader_enter_local {[ "filename" := VStr "r.txt" ]} "r.txt" "old"
           VNone (local_world {[ "r.txt" := "old" ]} None));
    [reflexivity|reflexivity|left; reflexivity].
Defined.

Lemma S3Reader_enter_not_found_witness :
  forced_reader !! "filename" = Some (VStr "r.txt")
  ∧ forced_reader !! "bucket" = Some (VStr "my-bucket")
  ∧ forced_reader !! "s3_only" = Some (VBool true)
  ∧ s3_head_object (S3Client (VStr "AKIAEXAMPLE") (VStr "s3cr3t"))
      (VStr "my-bucket") "r.txt"
      (w_s3 (local_world {[ "r.txt" := "old" ]} None))
    = Return (HeadClientError "404")
  ∧ S3Reader___enter__ forced_reader (local_world {[ "r.txt" := "old" ]} None)
    = (Return (forced_reader, VNone), local_world {[ "r.txt" := "old" ]} None).
Proof.
  split; [reflexivity|]. split; [reflexivity|]. split; [reflexivity|].
  split; [reflexivity|].
  apply (S3Reader_enter_not_found forced_reader "r.txt" "404"
           (S3Client (VStr "AKIAEXAMPLE") (VStr "s3cr3t"))
           (VStr "my-bucket") (VBool true) (VBool true)
           (local_world {[ "r.txt" := "old" ]} None));
    try reflexivity.
  right. split; reflexivity.
Defined.

Lemma S3Reader_enter_downloads_witness :
  forced_reader !! "bucket" = Some (VStr "my-bucket")
  ∧ s3_head_object (S3Client (VStr "AKIAEXAMPLE") (VStr "s3cr3t"))
      (VStr "my-bucket") "r.txt" (w_s3 world_with_object)
    = Return HeadFound
  ∧ s3_download_file (S3Client (VStr "AKIAEXAMPLE") (VStr "s3cr3t"))
      (VStr "my-bucket") "r.txt" (w_s3 world_with_object)
    = Return "new"
  ∧ ∃ w', S3Reader___enter__ forced_reader world_with_object
          = (Return (<["file" := VReader (readlines "new")]> forced_reader,
                     VReader (readlines "new")), w')
          ∧ w_fs w' !! "r.txt" = Some "new".
Proof.
  split; [reflexivity|]. split; [reflexivity|]. split; [reflexivity|].
  eexists. split.
  - apply (S3Reader_enter_downloads forced_reader "r.txt" "new"
             (S3Client (VStr "AKIAEXAMPLE") (VStr "s3cr3t"))
             (VStr "my-bucket") (VBool true) world_with_object);
      try reflexivity.
    right. split; reflexivity.
  - reflexivity.
Defined.

Lemma get_data_from_file_needs_credentials_witness :
  let w := local_world
             {[ "PlatformChargeback.cfg" := unlines ["K:"; "cost,last"];
                "r.txt" := "total cost 42" ]} None in
  get_config_value (w_fs w) "K" None false = Return (VList ["cost,last"])
  ∧ w_env w = None ∧ w_fs w !! "aws.cfg" = None
  ∧ get_data_from_file (λ _, None) "r.txt" "K" w = (Exit 1, w).
Proof.
  intros w.
  assert (Hcfg : get_config_value (w_fs w) "K" None false
                 = Return (VList ["cost,last"]))
    by (vm_compute; reflexivity).
  split; [exact Hcfg|]. split; [reflexivity|]. split; [reflexivity|].
  apply (get_data_from_file_needs_credentials (λ _, None) "r.txt" "K"
           (VList ["cost,last"]) w Hcfg); reflexivity.
Defined.

Lemma FileManager_delete_keeps_local_files_witness :
  (∅ : attrs) !! "access_key_id" = None
  ∧ FileManager_delete ∅ "r.txt" world_with_object
    = (Raise AttributeError, world_with_object).
Proof.
  split; [reflexivity|].
  destruct (FileManager_delete_keeps_local_files ∅ "r.txt" world_with_object)
    as [_ Hlocal].
  apply Hlocal. reflexivity.
Defined.

(** ** Columns of a record *)

Lemma enumerate_into_lookup (name : string) (names : list string) :
  ∀ (num : nat) (column_index : gmap string nat) (i : nat),
    enumerate_into num names column_index !! name = Some i
    ↔ (∃ j, i = (num + j)%nat ∧ names !! j = Some name
            ∧ ∀ j', (j < j')%nat → names !! j' ≠ Some name)
      ∨ ((∀ j, names !! j ≠ Some name) ∧ column_index !! name = Some i).
Proof.
  induction names as [|n names IH]; intros num column_index i; simpl.
  - split.
    + intros Hd. right. split; [intros j; discriminate|exact Hd].
    + intros [(j & _ & Hj & _)|[_ Hd]]; [discriminate Hj|exact Hd].
  - rewrite IH. split.
    + intros [(j & -> & Hj & Hlast)|[Hnone Hd]].
      * left. exists (S j). split; [lia|]. split; [exact Hj|].
        intros [|j'] Hlt; [lia|]. simpl. apply Hlast. lia.
      * destruct (decide (n = name)) as [->|Hne].
        -- rewrite lookup_insert_eq in Hd. inversion Hd; subst.
           left. exists 0%nat. split; [lia|]. split; [reflexivity|].
           intros [|j'] Hlt; [lia|]. simpl. apply Hnone.
        -- rewrite lookup_insert_ne in Hd by exact Hne.
           right. split; [|exact Hd].
           intros [|j]; simpl; [congruence|apply Hnone].
    + intros [(j & -> & Hj & Hlast)|[Hnone Hd]].
      * destruct j as [|j].
        -- simpl in Hj. inversion Hj; subst. right.
           split; [intros j; apply (Hlast (S j)); lia|].
           rewrite lookup_insert_eq. f_equal. lia.
        -- left. exists j. split; [lia|]. split; [exact Hj|].
           intros j' Hlt. apply (Hlast (S j')). lia.
      * right. split; [intros j; apply (Hnone (S j))|].
        rewrite lookup_insert_ne; [exact Hd|].
        intros ->. now apply (Hnone 0%nat).
Qed.

(** X15: the offset that [CsvReader.__enter__] records for a column name is
    that of its last occurrence in the header: with a repeated name, the
    earlier columns of that name cannot be reached by name. *)
Theorem column_index_last_occurrence (names : list string) (name : string)
    (i : nat) :
  enumerate_into 0 names ∅ !! name = Some i
  ↔ names !! i = Some name ∧ ∀ j, (i < j)%nat → names !! j ≠ Some name.
Proof.
  rewrite enumerate_into_lookup. split.
  - intros [(j & -> & Hj & Hlast)|[_ Hd]]; [|discriminate Hd].
    split; [exact Hj|exact Hlast].
  - intros [Hi Hlast]. left. exists i. split; [reflexivity|].
    split; [exact Hi|exact Hlast].
Qed.

Section ColumnsProperties.
Variables (self : attrs) (words : list string) (column_index : gmap string nat).
Hypothesis Hwords : self !! "words" = Some (VList words).
Hypothesis Hindex : self !! "column_index" = Some (VDict column_index).

Lemma column_lookup (name : string) :
  column self name
  = match column_index !! name with
    | Some i => py_index words (Z.of_nat i)
    | None => Raise KeyError
    end.
Proof. unfold column, getattr. rewrite Hwords, Hindex. reflexivity. Qed.

(** X16: [column] on a name that is not in the header raises [KeyError]
    and does not end the process; it is the case [column_present] answers
    [False] to.  On a name of the header it returns the field at the
    recorded offset, or raises [IndexError] when the record is too short. *)
Theorem column_errors (name : string) :
  (column_present self name = Return false ↔ column self name = Raise KeyError)
  ∧ (∀ i, column_index !! name = Some i →
       column_present self name = Return true
       ∧ column self name
         = from_option Return (Raise IndexError) (words !! i)).
Proof.
  rewrite column_lookup. unfold column_present, getattr. rewrite Hindex. simpl.
  split.
  - destruct (column_index !! name) as [i|] eqn:Hi.
    + rewrite bool_decide_eq_true_2 by eauto. split; [discriminate|].
      intros Hk. destruct (words !! i) as [x|] eqn:Hx.
      * rewrite (py_index_nonneg _ _ x) in Hk
          by (lia || now rewrite Nat2Z.id).
        discriminate Hk.
      * rewrite py_index_out_of_range in Hk; [discriminate Hk|].
        right. apply lookup_ge_None in Hx. lia.
    + rewrite bool_decide_eq_false_2; [tauto|]. intros [? Hx]. discriminate Hx.
  - intros i Hi. rewrite Hi. rewrite bool_decide_eq_true_2 by eauto.
    split; [reflexivity|].
    destruct (words !! i) as [x|] eqn:Hx; simpl.
    + apply py_index_nonneg; [lia|now rewrite Nat2Z.id].
    + apply py_index_out_of_range. right. apply lookup_ge_None in Hx. lia.
Qed.

Lemma append_assoc (a b c : string) : (a +:+ b) +:+ c = a +:+ b +:+ c.
Proof.
  induction a as [|x a IH]; [reflexivity|].
  change (String x ((a +:+ b) +:+ c) = String x (a +:+ b +:+ c)).
  now rewrite IH.
Qed.

Lemma build_key_loop_started (separator key : string) (names fields : list string) :
  key ≠ "" →
  Forall2 (λ name field, column self name = Return field) names fields →
  build_key_loop self separator key names
  = Return (join separator (key :: fields)).
Proof.
  intros Hkey Hfields. revert key Hkey.
  induction Hfields as [|name field names fields Hf _ IH]; intros key Hkey.
  - reflexivity.
  - simpl build_key_loop. rewrite Hf. simpl.
    apply String.eqb_neq in Hkey. rewrite Hkey.
    rewrite IH.
    + f_equal. destruct fields; simpl; [reflexivity|].
      now rewrite !append_assoc.
    + destruct key; [now apply String.eqb_neq in Hkey|discriminate].
Qed.

Lemma build_key_loop_join (separator : string) (names fields : list string) :
  Forall2 (λ name field, column self name = Return field) names fields →
  build_key_loop self separator "" names
  = Return (join separator (drop_leading_empty fields)).
Proof.
  induction 1 as [|name field names fields Hf Hrest IH]; [reflexivity|].
  simpl build_key_loop. rewrite Hf. simpl.
  destruct field as [|c field]; [exact IH|].
  now apply build_key_loop_started.
Qed.

(** X17: the key that [build_key] makes from a list of columns is the
    fields of those columns joined by the separator (a comma when none or
    an empty one is given), except that empty fields at the front are left
    out together with their separators. *)
Theorem build_key_join (separator : option string)
    (names fields : list string) :
  Forall2 (λ name field, column self name = Return field) names fields →
  build_key self (inl names) separator
  = Return (join (match separator with
                  | Some s => if String.eqb s "" then "," else s
                  | None => ","
                  end)
                 (drop_leading_empty fields)).
Proof. intros Hfields. unfold build_key. now apply build_key_loop_join. Qed.

End ColumnsProperties.

Lemma column_errors_witness :
  let self := next_record
                (<["column_index" := VDict (enumerate_into 0 ["a"; "b"] ∅)]> ∅)
                "1,2" in
  self !! "words" = Some (VList ["1"; "2"])
  ∧ self !! "column_index" = Some (VDict (enumerate_into 0 ["a"; "b"] ∅))
  ∧ column_present self "c" = Return false
  ∧ column self "c" = Raise KeyError
  ∧ column self "b" = Return "2".
Proof.
  intros self.
  assert (Hwords : self !! "words" = Some (VList ["1"; "2"])) by reflexivity.
  assert (Hindex : self !! "column_index"
                   = Some (VDict (enumerate_into 0 ["a"; "b"] ∅)))
    by reflexivity.
  destruct (column_errors self _ _ Hwords Hindex "c") as [Habsent _].
  destruct (column_errors self _ _ Hwords Hindex "b") as [_ Hpresent].
  split; [exact Hwords|]. split; [exact Hindex|].
  split; [reflexivity|]. split.
  - apply Habsent. reflexivity.
  - destruct (Hpresent 1%nat ltac:(vm_compute; reflexivity)) as [_ Hb].
    exact Hb.
Defined.

Lemma build_key_join_witness :
  let self := next_record
                (<["column_index" := VDict (enumerate_into 0 ["a"; "b"; "c"] ∅)]> ∅)
                ",x,y" in
  Forall2 (λ name field, column self name = Return field)
          ["a"; "b"; "c"] [""; "x"; "y"]
  ∧ build_key self (inl ["a"; "b"; "c"]) None = Return "x,y".
Proof.
  intros self.
  assert (Hfields : Forall2 (λ name field, column self name = Return field)
                            ["a"; "b"; "c"] [""; "x"; "y"])
    by (repeat constructor).
  split; [exact Hfields|].
  exact (build_key_join self None _ _ Hfields).
Defined.

(** ** Further properties of the claims' code *)

Lemma missing_file_exit_status_is_one_witness :
  (∅ : files) !! default "PlatformChargeback.cfg" None = None
  ∧ get_config_value ∅ "LICENSED_SERVICES" None true = Exit 1.
Proof.
  split; [reflexivity|].
  apply (missing_file_exit_status_is_one ∅ "LICENSED_SERVICES" None true).
  reflexivity.
Defined.

Lemma S3Writer_enter_backs_up_first_witness :
  let self : attrs := {[ "filename" := VStr "out.txt" ]} in
  let w := local_world {[ "out.txt" := "old" ]} None in
  self !! "filename" = Some (VStr "out.txt")
  ∧ w_fs w !! "out.txt" = Some "old"
  ∧ ∃ w2,
      S3Writer___enter__ self w
      = (Return (<["file" := VWriter "out.txt"]> self, VWriter "out.txt"), w2)
      ∧ w_fs w2 !! "out.txt.sav" = Some "old"
      ∧ w_fs w2 !! "out.txt" = Some "".
Proof.
  intros self w.
  split; [reflexivity|]. split; [reflexivity|].
  destruct (S3Writer_enter_backs_up_first self "out.txt" "old" w
              eq_refl eq_refl)
    as (w1 & w2 & _ & _ & Henter & _ & _ & Hsav & Hnew & _).
  exists w2. split; [exact Henter|]. split; [exact Hsav|exact Hnew].
Defined.

Lemma column_by_number_cases_witness :
  let self := next_record ∅ "x,y,z" in
  self !! "words" = Some (VList ["x"; "y"; "z"])
  ∧ column_by_number self 2 = Return "y"
  ∧ column_by_number self 4 = Exit 0
  ∧ column_by_number self (-3) = Raise IndexError.
Proof.
  intros self.
  assert (Hwords : self !! "words" = Some (VList ["x"; "y"; "z"]))
    by reflexivity.
  split; [exact Hwords|].
  destruct (column_by_number_cases self _ 2 Hwords) as (_ & Hin & _ & _).
  destruct (column_by_number_cases self _ 4 Hwords) as (Hhigh & _ & _ & _).
  destruct (column_by_number_cases self _ (-3) Hwords) as (_ & _ & _ & Hlow).
  split; [|split].
  - destruct (Hin ltac:(simpl; lia)) as (field & Hfield & Hcol).
    simpl in Hfield. inversion Hfield; subst. exact Hcol.
  - apply Hhigh. simpl. lia.
  - apply Hlow. simpl. lia.
Defined.

Lemma vcap_kms_key_id_is_trailing_segment_witness :
  ∃ self,
    S3Initializer___init__ ∅ VNone (local_world ∅ (Some vcap_with_kms))
    = (Return self, local_world ∅ (Some vcap_with_kms))
    ∧ self !! "kms_key_id" = Some (VStr "1234abcd").
Proof.
  apply (vcap_kms_key_id_is_trailing_segment vcap_with_kms
           {| credentials :=
                {[ "access_key_id" := "AKIAEXAMPLE";
                   "secret_access_key" := "s3cr3t";
                   "bucket" := "my-bucket";
                   "kms_key_arn" :=
                     "arn:aws:kms:us-east-1:111122223333:key/1234abcd" ]} |}
           [] "AKIAEXAMPLE" "my-bucket" "s3cr3t"
           "arn:aws:kms:us-east-1:111122223333:key" "1234abcd"
           ∅ VNone (local_world ∅ (Some vcap_with_kms)));
    vm_compute; reflexivity.
Defined.

(** X: with the name of a single column, in local-only mode,
    [get_total_from_csv] returns the sum, in the order of the records, of
    the fields of that column, added to 0.0 one after the other. *)
Theorem get_total_from_csv_sums_column {R} `{!S3Api R}
    (float_of_str : string → option float) (w : world R)
    (csv_filename key_column text header_line : string)
    (lines : list string) (num : nat) (xs : list float) :
  w_env w = None → w_fs w !! "aws.cfg" = None →
  w_fs w !! csv_filename = Some text →
  readlines text = header_line :: lines →
  contains "*" key_column = false →
  enumerate_into 0 (split "," (strip header_line)) ∅ !! key_column
    = Some num →
  Forall2 (field_is float_of_str num) lines xs →
  get_total_from_csv float_of_str csv_filename key_column w
  = (Return (fold_left PrimFloat.add xs 0%float), w).
Proof. apply get_total_from_csv_single_column. Qed.

Lemma get_total_from_csv_sums_column_witness :
  let float_of_str (s : string) : option float :=
    if String.eqb s "1.5" then Some 1.5%float
    else if String.eqb s "2.5" then Some 2.5%float else None in
  let w := local_world {[ "t.csv" := unlines ["b,a"; "x,1.5"; "y,2.5"] ]} None in
  Forall2 (field_is float_of_str 1)
          ["x,1.5" +:+ String LF ""; "y,2.5" +:+ String LF ""]
          [1.5%float; 2.5%float]
  ∧ get_total_from_csv float_of_str "t.csv" "a" w = (Return 4%float, w).
Proof.
  intros float_of_str w.
  assert (Hfields : Forall2 (field_is float_of_str 1)
                      ["x,1.5" +:+ String LF ""; "y,2.5" +:+ String LF ""]
                      [1.5%float; 2.5%float]).
  { repeat constructor.
    - exists "1.5". split; reflexivity.
    - exists "2.5". split; reflexivity. }
  split; [exact Hfields|].
  replace 4%float
    with (fold_left PrimFloat.add [1.5%float; 2.5%float] 0%float)
    by reflexivity.
  apply (get_total_from_csv_sums_column float_of_str w "t.csv" "a"
           (unlines ["b,a"; "x,1.5"; "y,2.5"]) ("b,a" +:+ String LF "")
           ["x,1.5" +:+ String LF ""; "y,2.5" +:+ String LF ""]
           1 [1.5%float; 2.5%float]);
    try (vm_compute; reflexivity).
  exact Hfields.
Defined.

(** X: lines that start with [#] are ignored: a file and the same file
    without its comment lines give the same answer to every lookup. *)
Theorem comment_lines_are_ignored (fs fs' : files)
    (filename config_key : string) (ls : list string) (suppress : bool) :
  Forall (λ l, contains LF l = false) ls →
  fs !! filename = Some (unlines ls) →
  fs' !! filename
    = Some (unlines (List.filter (λ l, negb (startswith "#" l)) ls)) →
  get_config_value fs config_key (Some filename) suppress
  = get_config_value fs' config_key (Some filename) suppress.
Proof. apply get_config_value_ignores_comments. Qed.

Lemma comment_lines_are_ignored_witness :
  let ls := ["# services"; "K:"; "- foo"; "#- bar"; "- baz"] in
  Forall (λ l, contains LF l = false) ls
  ∧ get_config_value {[ "c.cfg" := unlines ls ]} "K" (Some "c.cfg") false
    = get_config_value {[ "c.cfg" := unlines ["K:"; "- foo"; "- baz"] ]}
        "K" (Some "c.cfg") false.
Proof.
  intros ls.
  assert (Hls : Forall (λ l, contains LF l = false) ls)
    by (repeat constructor).
  split; [exact Hls|].
  apply (comment_lines_are_ignored _ _ "c.cfg" "K" ls false Hls);
    reflexivity.
Defined.

(** ** Tables *)

Lemma append_to_rows_zip {A} (column_to_add : list A) :
  ∀ before rows : list (list A),
    List.length rows = List.length column_to_add →
    append_to_rows (List.length before) column_to_add (before ++ rows)%list
    = (Return tt,
       (before ++ zip_with (λ row item, row ++ [item]) rows column_to_add)%list).
Proof.
  induction column_to_add as [|item rest IH]; intros before rows Hlen.
  - destruct rows; [reflexivity|discriminate].
  - destruct rows as [|row rows]; [discriminate|].
    simpl. rewrite (list_lookup_middle before rows row _ eq_refl).
    replace (<[List.length before := (row ++ [item])%list]>
               (before ++ row :: rows)%list)
      with ((before ++ [(row ++ [item])%list]) ++ rows)%list.
    + replace (S (List.length before))
        with (List.length (before ++ [(row ++ [item])%list])%list)
        by (rewrite length_app; simpl; lia).
      rewrite IH by (simpl in Hlen; lia).
      now rewrite <- app_assoc.
    + rewrite insert_app_r_alt by lia. rewrite Nat.sub_diag. simpl.
      now rewrite <- app_assoc.
Qed.

Lemma TableBuilder_add_column {A} (m : nat) (columns : list (list A))
    (data : list (list A)) (column : list A) :
  (0 < m)%nat → table_of m columns data → List.length column = m →
  ∃ data', TableBuilder_add data column None = (Return tt, data')
           ∧ table_of m (columns ++ [column])%list data'.
Proof.
  intros Hm [Hrows Htable] Hcol.
  exists (zip_with (λ row item, (row ++ [item])%list) data column). split.
  - unfold TableBuilder_add.
    destruct data as [|row data]; [simpl in Hrows; lia|].
    apply (append_to_rows_zip column [] (row :: data)). lia.
  - split; [rewrite length_zip_with; lia|].
    intros i row' Hrow'.
    apply lookup_zip_with_Some in Hrow' as (row & item & -> & Hrow & Hitem).
    apply Forall2_app; [now apply Htable|].
    constructor; [exact Hitem|constructor].
Qed.

Lemma TableBuilder_add_columns {A} (m : nat) (rest : list (list A)) :
  (0 < m)%nat → Forall (λ column, List.length column = m) rest →
  ∀ (columns : list (list A)) (data : list (list A)),
    table_of m columns data →
    ∃ data', TableBuilder_add_all data rest = (Return tt, data')
             ∧ table_of m (columns ++ rest)%list data'.
Proof.
  intros Hm Hrest.
  induction Hrest as [|column rest Hcol _ IH]; intros columns data Htable.
  - exists data. rewrite app_nil_r. split; [reflexivity|exact Htable].
  - destruct (TableBuilder_add_column m columns data column Hm Htable Hcol)
      as (data1 & Hadd & Htable1).
    destruct (IH _ _ Htable1) as (data' & Hall & Htable').
    exists data'. simpl. rewrite Hadd. split; [exact Hall|].
    now rewrite <- app_assoc in Htable'.
Qed.

(** X24: columns of one length, at least 1, added one after the other to
    an empty [TableBuilder] give the table of their rows: as many rows as
    the columns are long, row [i] holding the item [i] of every column, in
    the order the columns were added. *)
Theorem TableBuilder_add_transposes {A} (m : nat) (column : list A)
    (rest : list (list A)) :
  (0 < m)%nat →
  Forall (λ column, List.length column = m) (column :: rest) →
  ∃ data, TableBuilder_add_all [] (column :: rest) = (Return tt, data)
          ∧ table_of m (column :: rest) data.
Proof.
  intros Hm Hcols. apply Forall_cons in Hcols as [Hcol Hrest].
  assert (Hfirst : table_of m [column] ((λ item, [item]) <$> column)).
  { split; [now rewrite length_fmap|].
    intros i row Hrow. apply list_lookup_fmap_Some in Hrow as (item & -> & Hitem).
    constructor; [exact Hitem|constructor]. }
  destruct (TableBuilder_add_columns m rest Hm Hrest [column] _ Hfirst)
    as (data & Hall & Htable).
  exists data. split; [|exact Htable].
  simpl. exact Hall.
Qed.

Lemma TableBuilder_add_transposes_witness :
  (0 < 2)%nat
  ∧ Forall (λ column : list nat, List.length column = 2%nat)
           [[1; 2]; [3; 4]; [5; 6]]%nat
  ∧ TableBuilder_add_all [] [[1; 2]; [3; 4]; [5; 6]]%nat
    = (Return tt, [[1; 3; 5]; [2; 4; 6]]%nat).
Proof.
  assert (Hcols : Forall (λ column : list nat, List.length column = 2%nat)
                         [[1; 2]; [3; 4]; [5; 6]]%nat)
    by (repeat constructor).
  split; [lia|]. split; [exact Hcols|].
  destruct (TableBuilder_add_transposes 2 [1; 2]%nat [[3; 4]; [5; 6]]%nat
              ltac:(lia) Hcols) as (data & Hall & _).
  rewrite Hall. f_equal. vm_compute in Hall. now inversion Hall.
Defined.

(** A column longer than the table raises [IndexError] once the rows that
    exist have been extended. *)
Lemma TableBuilder_add_longer_column :
  TableBuilder_add [[1]; [2]]%nat [3; 4; 5]%nat None
  = (Raise IndexError, [[1; 3]; [2; 4]]%nat).
Proof. reflexivity. Qed.

(** ** The billing month *)

(** X25: for a month offset that leads at most eleven months before
    January and not past December ([month - month_offset] from -11 to 12;
    the default offset is 1), [billing_datestring] prints the year and the
    month that lie [month_offset] months before today's: the month is
    between 1 and 12 and printed on two digits, after the year. *)
Theorem billing_datestring_month (year month : Z) (month_offset : option Z) :
  1 ≤ month ≤ 12 →
  -11 ≤ month - default 1 month_offset ≤ 12 →
  ∃ year' month',
    billing_datestring (year, month) month_offset
    = format_d year' +:+ format_02d month'
    ∧ 1 ≤ month' ≤ 12
    ∧ 12 * year' + month' = 12 * year + month - default 1 month_offset
    ∧ String.length (format_02d month') = 2%nat.
Proof.
  intros Hmonth Hoffset.
  unfold billing_datestring, billing_month.
  set (offset := default 1 month_offset) in *.
  destruct (Z.ltb_spec (month - offset) 1).
  - exists (year - 1), (month - offset + 12).
    split; [reflexivity|]. split; [lia|]. split; [lia|].
    assert (Hcases : ∃ k, month - offset + 12 = Z.of_nat k ∧ (1 <= k <= 12)%nat).
    { exists (Z.to_nat (month - offset + 12)). lia. }
    destruct Hcases as (k & -> & Hk).
    do 13 (destruct k as [|k]; [try lia; reflexivity|]). lia.
  - exists year, (month - offset).
    split; [reflexivity|]. split; [lia|]. split; [lia|].
    assert (Hcases : ∃ k, month - offset = Z.of_nat k ∧ (1 <= k <= 12)%nat).
    { exists (Z.to_nat (month - offset)). lia. }
    destruct Hcases as (k & -> & Hk).
    do 13 (destruct k as [|k]; [try lia; reflexivity|]). lia.
Qed.

Lemma billing_datestring_month_witness :
  1 ≤ 1 ≤ 12 ∧ -11 ≤ 1 - default 1 None ≤ 12
  ∧ billing_datestring (2026, 1) None = "202512".
Proof.
  split; [lia|]. split; [simpl; lia|].
  destruct (billing_datestring_month 2026 1 None ltac:(lia) ltac:(simpl; lia))
    as (year' & month' & Hprint & Hm & Hsum & _).
  simpl in Hsum.
  assert (year' = 2025 ∧ month' = 12) as [-> ->] by lia.
  exact Hprint.
Defined.

(** Further back than that, the month printed is not a month. *)
Lemma billing_datestring_thirteen_months_back :
  billing_datestring (2026, 1) (Some 13) = "202500".
Proof. reflexivity. Qed.
